(** * GcpKmsRsaPssProvider: a shallow embedding and its properties

    The development follows [src/lib/gcp/GcpKmsRsaPssProvider.ts] and
    [GcpKmsRsaPssPrivateKey.ts].  Asynchronous methods become computations
    in a state-and-exception monad: the state holds the object store of key
    handles, the state of the remote service and the chronological trace of
    effects (remote calls and delays); a rejected promise or a thrown value
    is the [inl] result. *)

From Stdlib Require Import ZArith List String Ascii Bool Lia.
From Stdlib Require Import DecimalString.
From Stdlib Require Import Strings.Byte.
Import ListNotations.

#[local] Set Warnings "-register-all".

Local Open Scope string_scope.
Local Open Scope Z_scope.

(** ** JavaScript values *)

(** A property that the declarations allow to be [null] or missing. *)
Inductive Nullable (A : Type) : Type :=
| null
| undefined
| value (a : A).
Arguments null {A}.
Arguments undefined {A}.
Arguments value {A} a.

(** [!x] on a nullable boolean: [null], [undefined] and [false] are falsy. *)
Definition falsy (b : Nullable bool) : bool :=
  match b with
  | value true => false
  | _ => true
  end.

(** [`${x}`] on a nullable string. *)
Definition interpolate (x : Nullable string) : string :=
  match x with
  | null => "null"
  | undefined => "undefined"
  | value s => s
  end.

(** [`${n}`] on an integral number. *)
Definition string_of_Z (n : Z) : string :=
  NilZero.string_of_int (Z.to_int n).

Definition Buffer : Type := list Byte.byte.
Definition ArrayBuffer : Type := list Byte.byte.

(** [Buffer.from(arrayBuffer)]: the same octets. *)
Definition Buffer_from (data : ArrayBuffer) : Buffer := data.

(** Modelled from the spec: [bufferToArrayBuffer] of [../utils/buffer] is
    not among the sources; the spec has the signature bytes returned
    unmodified, so the conversion keeps the octets. *)
Definition bufferToArrayBuffer (buffer : Buffer) : ArrayBuffer := buffer.

(** ** Errors *)

Record Violation : Type := mkViolation {
  type : string;
  description : string
}.

(** One entry of an error's [statusDetails]; entries are untyped in the
    source ([d: any]), so [violations] may be missing. *)
Record StatusDetail : Type := mkStatusDetail {
  violations : option (list Violation)
}.

(** Modelled from the spec: the class [KmsError] of [../KmsError] is not
    among the sources; the spec has a single error kind carrying a
    human-readable message and, where applicable, the wrapped underlying
    cause.  The other values that can be thrown are the runtime's
    [TypeError] and [ServiceError], which stands for whatever the KMS
    client rejects with. *)
Inductive JsError : Type :=
| KmsError (message : string) (cause : option JsError)
| TypeError (message : string)
| ServiceError (message : string) (statusDetails : option (list StatusDetail)).

Definition isKmsError (e : JsError) : bool :=
  match e with
  | KmsError _ _ => true
  | _ => false
  end.

(** [(err as any).statusDetails] *)
Definition statusDetailsOf (err : JsError) : option (list StatusDetail) :=
  match err with
  | ServiceError _ sd => sd
  | _ => None
  end.

(** ** The KMS client interface *)

Record CallOptions : Type := mkCallOptions {
  maxRetries : Z;
  timeout : Z
}.

(** A protobuf [Int64Value]; its [value] is kept as the integer it
    denotes. *)
Record Int64Value : Type := mkInt64Value {
  int64_value : Z
}.

Record AsymmetricSignRequest : Type := mkAsymmetricSignRequest {
  req_data : Buffer;
  req_dataCrc32c : Int64Value;
  req_name : string
}.

(** [signature] is read through the cast [as Buffer]; the other fields are
    nullable as in the generated protobuf declarations. *)
Record AsymmetricSignResponse : Type := mkAsymmetricSignResponse {
  resp_name : Nullable string;
  verifiedDataCrc32c : Nullable bool;
  signature : Buffer;
  signatureCrc32c : Nullable Int64Value
}.

Record GetPublicKeyRequest : Type := mkGetPublicKeyRequest {
  pk_name : string
}.

Record PublicKey : Type := mkPublicKey {
  pem : Nullable string
}.

(** What the module takes from its environment: the state space of the
    remote service, [calculate] of [fast-crc32c], the base64 decoder behind
    [Buffer.from(_, 'base64')] and the constant [KMS_REQUEST_OPTIONS] of
    [./kmsUtils]. *)
Class Imports : Type := mkImports {
  World : Type;
  calculateCRC32C : Buffer -> Z;
  Buffer_from_base64 : string -> Buffer;
  KMS_REQUEST_OPTIONS : CallOptions
}.

Section Model.
Context {I : Imports}.

(** [KeyManagementServiceClient]: each call reads and updates the state of
    the remote service and either resolves or rejects. *)
Record KeyManagementServiceClient : Type := mkClient {
  asymmetricSign :
    World -> AsymmetricSignRequest -> CallOptions ->
    World * (JsError + AsymmetricSignResponse);
  getPublicKey :
    World -> GetPublicKeyRequest -> CallOptions ->
    World * (JsError + PublicKey)
}.

(** ** Keys and the provider *)

Record GcpKmsRsaPssProvider : Type := mkProvider {
  kmsClient : KeyManagementServiceClient;
  hashAlgorithms : list string
}.

(** [constructor(kmsClient)] *)
Definition newGcpKmsRsaPssProvider (kmsClient : KeyManagementServiceClient)
  : GcpKmsRsaPssProvider :=
  {| kmsClient := kmsClient; hashAlgorithms := ["SHA-256"; "SHA-512"] |}.

(** The fields of a [GcpKmsRsaPssPrivateKey] object: its own
    [kmsKeyVersionPath] and the two handed to the superclass. *)
Record GcpKmsRsaPssPrivateKey : Type := mkGcpKmsRsaPssPrivateKey {
  kmsKeyVersionPath : string;
  hashingAlgorithm : string;
  provider : GcpKmsRsaPssProvider
}.

(** A reference to a key-handle object in the store. *)
Definition Ref : Type := nat.

(** A [CryptoKey] argument: the class of the object decides [instanceof];
    for a [GcpKmsRsaPssPrivateKey] the fields live in the store. *)
Inductive CryptoKey : Type :=
| GcpKmsKey (ref : Ref)
| OtherKey (constructor_name : string).

Record CryptoKeyPair : Type := mkCryptoKeyPair {
  privateKey : CryptoKey;
  publicKey : CryptoKey
}.

Inductive KeyFormat : Type := jwk | pkcs8 | raw | spki.

Definition KeyFormat_eqb (a b : KeyFormat) : bool :=
  match a, b with
  | jwk, jwk | pkcs8, pkcs8 | raw, raw | spki, spki => true
  | _, _ => false
  end.

Record RsaPssParams : Type := mkRsaPssParams {
  alg_name : string;
  saltLength : Z
}.

(** ** Effects *)

Inductive Event : Type :=
| EvAsymmetricSign (req : AsymmetricSignRequest) (opts : CallOptions)
| EvGetPublicKey (req : GetPublicKeyRequest) (opts : CallOptions)
| EvSleep (ms : Z).

Definition isRemoteCall (e : Event) : bool :=
  match e with
  | EvSleep _ => false
  | _ => true
  end.

(** Number of invocations of the remote service in a trace. *)
Definition remoteCalls (t : list Event) : nat :=
  List.length (filter isRemoteCall t).

Record State : Type := mkState {
  handles : Ref -> GcpKmsRsaPssPrivateKey;
  remote : World;
  trace : list Event
}.

Definition M (A : Type) : Type := State -> State * (JsError + A).

Definition ret {A} (a : A) : M A := fun s => (s, inr a).

Definition throw {A} (e : JsError) : M A := fun s => (s, inl e).

Definition bind {A B} (m : M A) (k : A -> M B) : M B :=
  fun s =>
    match m s with
    | (s', inr a) => k a s'
    | (s', inl e) => (s', inl e)
    end.

(** [try { m } catch (err) { h err }] *)
Definition try_catch {A} (m : M A) (h : JsError -> M A) : M A :=
  fun s =>
    match m s with
    | (s', inl e) => h e s'
    | r => r
    end.

Definition lift {A} (r : JsError + A) : M A := fun s => (s, r).

Definition emit (e : Event) : M unit :=
  fun s =>
    ({| handles := handles s; remote := remote s; trace := trace s ++ [e] |},
     inr tt).

End Model.

Notation "x <- m ;; k" := (bind m (fun x => k))
  (at level 61, m at next level, right associativity).
Notation "m ;;; k" := (bind m (fun _ => k))
  (at level 61, right associativity).

(** ** Text helpers *)

Definition newline : ascii := "010"%char.

Definition in_range (lo hi : nat) (c : ascii) : bool :=
  (Nat.leb lo (nat_of_ascii c) && Nat.leb (nat_of_ascii c) hi)%bool.

(** The class [\w]: letters, digits and the underscore. *)
Definition is_word (c : ascii) : bool :=
  (in_range 65 90 c || in_range 97 122 c || in_range 48 57 c
   || Ascii.eqb c "_"%char)%bool.

(** The class [[\w ]]. *)
Definition is_label_char (c : ascii) : bool :=
  (is_word c || Ascii.eqb c " "%char)%bool.

(** The rest of [s] after the literal [p], when [s] starts with it. *)
Fixpoint strip_prefix (p s : string) : option string :=
  match p with
  | EmptyString => Some s
  | String a p' =>
      match s with
      | EmptyString => None
      | String b s' => if Ascii.eqb a b then strip_prefix p' s' else None
      end
  end.

(** [[\w ]*], greedy: the rest of [s] after its longest run of label
    characters.  A shorter run would be followed by a label character, not
    by a dash, so backtracking never finds another match. *)
Fixpoint skip_label (s : string) : string :=
  match s with
  | EmptyString => EmptyString
  | String c s' => if is_label_char c then skip_label s' else s
  end.

(** A match of [-----[\w ]*-----] at the start of [s]: what follows it. *)
Definition match_framing (s : string) : option string :=
  match strip_prefix "-----" s with
  | Some s1 => strip_prefix "-----" (skip_label s1)
  | None => None
  end.

(** [.replace(/(-----[\w ]*-----|\n)/g, '')], scanning left to right;
    [skip] counts the characters of the current match still to drop. *)
Fixpoint replace_framing (skip : nat) (s : string) : string :=
  match s with
  | EmptyString => EmptyString
  | String c s' =>
      match skip with
      | S k => replace_framing k s'
      | O =>
          match match_framing s with
          | Some rest =>
              replace_framing (String.length s' - String.length rest) s'
          | None =>
              if Ascii.eqb c newline then replace_framing 0 s'
              else String c (replace_framing 0 s')
          end
      end
  end.

(** The characters of [s] other than the newline. *)
Fixpoint drop_newlines (s : string) : string :=
  match s with
  | EmptyString => EmptyString
  | String c s' =>
      if Ascii.eqb c newline then drop_newlines s'
      else String c (drop_newlines s')
  end.

Fixpoint string_forallb (p : ascii -> bool) (s : string) : bool :=
  match s with
  | EmptyString => true
  | String c s' => (p c && string_forallb p s')%bool
  end.

Definition not_dash (c : ascii) : bool := negb (Ascii.eqb c "-"%char).

Definition not_newline (c : ascii) : bool := negb (Ascii.eqb c newline).

(** [a] is [b] with some of its characters deleted. *)
Inductive Subsequence : string -> string -> Prop :=
| Subsequence_nil : Subsequence EmptyString EmptyString
| Subsequence_drop c a b : Subsequence a b -> Subsequence a (String c b)
| Subsequence_keep c a b :
    Subsequence a b -> Subsequence (String c a) (String c b).

Section Provider.
Context {I : Imports}.

(** [function pemToDer(pemBuffer: string): Buffer] *)
Definition pemToDer (pemBuffer : string) : Buffer :=
  let oneliner := replace_framing 0 pemBuffer in
  Buffer_from_base64 oneliner.

(** Reading a field of a key handle through its reference. *)
Definition get_kmsKeyVersionPath (key : Ref) : M string :=
  fun s => (s, inr (kmsKeyVersionPath (handles s key))).

(** The two remote operations, each recorded in the trace. *)
Definition call_asymmetricSign (c : KeyManagementServiceClient)
    (req : AsymmetricSignRequest) (opts : CallOptions)
  : M AsymmetricSignResponse :=
  fun s =>
    let (w, r) := asymmetricSign c (remote s) req opts in
    ({| handles := handles s; remote := w;
        trace := trace s ++ [EvAsymmetricSign req opts] |}, r).

Definition call_getPublicKey (c : KeyManagementServiceClient)
    (req : GetPublicKeyRequest) (opts : CallOptions) : M PublicKey :=
  fun s =>
    let (w, r) := getPublicKey c (remote s) req opts in
    ({| handles := handles s; remote := w;
        trace := trace s ++ [EvGetPublicKey req opts] |}, r).

(** Modelled from the spec: [wrapGCPCallError] of [./kmsUtils] is not among
    the sources; the spec has any transport or service-level failure wrapped
    into the single error kind with a fixed descriptive prefix, preserving
    the underlying cause.  A call that resolves is passed through. *)
Definition wrapGCPCallError {A} (callPromise : M A) (errorMessage : string)
  : M A :=
  try_catch callPromise (fun error => throw (KmsError errorMessage (Some error))).

(** Modelled from the spec: [sleep] of [../utils/timing] is not among the
    sources; the spec has a fixed delay before the retry, which the model
    records in the trace. *)
Definition sleep (ms : Z) : M unit := emit (EvSleep ms).

Definition SUPPORTED_SALT_LENGTHS : list Z := [256 / 8; 512 / 8].

(** [Array.prototype.includes] on numbers. *)
Definition includes (l : list Z) (x : Z) : bool := existsb (Z.eqb x) l.

(** [Number(v)]: the integer itself.  A checksum is below [2^53], where
    the conversion to a number is exact, so the comparison with it is the
    comparison of the integers. *)
Definition Number (v : Z) : Z := v.

Definition value_is (x : Nullable string) (s : string) : bool :=
  match x with
  | value a => String.eqb a s
  | _ => false
  end.

Definition onGenerateKey (this : GcpKmsRsaPssProvider) : M CryptoKeyPair :=
  throw (KmsError "Key generation is unsupported" None).

Definition onImportKey (this : GcpKmsRsaPssProvider) : M CryptoKey :=
  throw (KmsError "Key import is unsupported" None).

Definition onVerify (this : GcpKmsRsaPssProvider) : M bool :=
  throw (KmsError "Signature verification is unsupported" None).

Definition kmsSign (this : GcpKmsRsaPssProvider) (plaintext : Buffer)
    (key : Ref) : M ArrayBuffer :=
  let plaintextChecksum := calculateCRC32C plaintext in
  name <- get_kmsKeyVersionPath key ;;
  response <- wrapGCPCallError
    (call_asymmetricSign (kmsClient this)
       {| req_data := plaintext;
          req_dataCrc32c := {| int64_value := plaintextChecksum |};
          req_name := name |}
       KMS_REQUEST_OPTIONS)
    "KMS signature request failed" ;;
  path <- get_kmsKeyVersionPath key ;;
  if negb (value_is (resp_name response) path) then
    throw (KmsError ("KMS used the wrong key version ("
                     ++ interpolate (resp_name response) ++ ")") None)
  else if falsy (verifiedDataCrc32c response) then
    throw (KmsError "KMS failed to verify plaintext CRC32C checksum" None)
  else
    let signature := signature response in
    match signatureCrc32c response with
    | value crc =>
        if negb (calculateCRC32C signature =? Number (int64_value crc)) then
          throw (KmsError
            "Signature CRC32C checksum does not match one received from KMS"
            None)
        else ret (bufferToArrayBuffer signature)
    | null =>
        throw (TypeError "Cannot read properties of null (reading 'value')")
    | undefined =>
        throw (TypeError
          "Cannot read properties of undefined (reading 'value')")
    end.

Definition onSign (this : GcpKmsRsaPssProvider) (algorithm : RsaPssParams)
    (key : CryptoKey) (data : ArrayBuffer) : M ArrayBuffer :=
  match key with
  | OtherKey constructor_name =>
      throw (KmsError ("Cannot sign with key of unsupported type ("
                       ++ constructor_name ++ ")") None)
  | GcpKmsKey ref =>
      if negb (includes SUPPORTED_SALT_LENGTHS (saltLength algorithm)) then
        throw (KmsError ("Unsupported salt length of "
                         ++ string_of_Z (saltLength algorithm) ++ " octets")
                        None)
      else kmsSign this (Buffer_from data) ref
  end.

(** [async function _retrieveKMSPublicKey]: one remote retrieval; the
    result is [response.pem!], whatever the response holds there. *)
Definition _retrieveKMSPublicKey (kmsKeyVersionName : string)
    (kmsClient : KeyManagementServiceClient) : M (Nullable string) :=
  response <- call_getPublicKey kmsClient
    {| pk_name := kmsKeyVersionName |}
    {| maxRetries := 3; timeout := 300 |} ;;
  ret (pem response).

(** The callback of the outer [filter]: does the detail list a violation of
    type [KEY_PENDING_GENERATION]?  A detail without [violations] makes
    [d.violations.filter] throw. *)
Definition hasPendingViolation (d : StatusDetail) : JsError + bool :=
  match violations d with
  | Some vs =>
      inr (Nat.ltb 0
             (List.length
                (filter
                   (fun v => String.eqb (type v) "KEY_PENDING_GENERATION")
                   vs)))
  | None =>
      inl (TypeError
             "Cannot read properties of undefined (reading 'filter')")
  end.

(** [statusDetails.filter(...)] with a callback that may throw. *)
Fixpoint filter_details (l : list StatusDetail)
  : JsError + list StatusDetail :=
  match l with
  | [] => inr []
  | d :: l' =>
      match hasPendingViolation d with
      | inl e => inl e
      | inr b =>
          match filter_details l' with
          | inl e => inl e
          | inr r => inr (if b then d :: r else r)
          end
      end
  end.

Definition isKeyPendingCreation (err : JsError) : JsError + bool :=
  let statusDetails :=
    match statusDetailsOf err with
    | Some l => l
    | None => []
    end in
  match filter_details statusDetails with
  | inl e => inl e
  | inr pendingCreationViolations =>
      inr (negb (Nat.eqb (List.length pendingCreationViolations) 0))
  end.

(** The local [retrieveWhenReady] of [retrieveKMSPublicKey]. *)
Definition retrieveWhenReady (kmsKeyVersionName : string)
    (kmsClient : KeyManagementServiceClient) : M (Nullable string) :=
  try_catch (_retrieveKMSPublicKey kmsKeyVersionName kmsClient)
    (fun err =>
       pending <- lift (isKeyPendingCreation err) ;;
       if negb pending then throw err
       else
         sleep 500 ;;;
         _retrieveKMSPublicKey kmsKeyVersionName kmsClient).

(** [pemToDer(publicKeyPEM)] starts with [pemBuffer.toString()], which
    throws when the PEM text is absent. *)
Definition retrieveKMSPublicKey (kmsKeyVersionName : string)
    (kmsClient : KeyManagementServiceClient) : M ArrayBuffer :=
  publicKeyPEM <- wrapGCPCallError
    (retrieveWhenReady kmsKeyVersionName kmsClient)
    "Failed to retrieve public key" ;;
  match publicKeyPEM with
  | value pemText =>
      let publicKeyDer := pemToDer pemText in
      ret (bufferToArrayBuffer publicKeyDer)
  | null =>
      throw (TypeError
        "Cannot read properties of null (reading 'toString')")
  | undefined =>
      throw (TypeError
        "Cannot read properties of undefined (reading 'toString')")
  end.

Definition onExportKey (this : GcpKmsRsaPssProvider) (format : KeyFormat)
    (key : CryptoKey) : M ArrayBuffer :=
  if negb (KeyFormat_eqb format spki) then
    throw (KmsError "Private key cannot be exported" None)
  else
    match key with
    | OtherKey _ => throw (KmsError "Key is not managed by KMS" None)
    | GcpKmsKey ref =>
        path <- get_kmsKeyVersionPath ref ;;
        retrieveKMSPublicKey path (kmsClient this)
    end.

(** ** States and requests named in the properties *)

(** The request [kmsSign] sends for [plaintext] under the key at [ref]. *)
Definition signRequest (s : State) (ref : Ref) (plaintext : Buffer)
  : AsymmetricSignRequest :=
  {| req_data := plaintext;
     req_dataCrc32c := {| int64_value := calculateCRC32C plaintext |};
     req_name := kmsKeyVersionPath (handles s ref) |}.

(** The state after one remote sign call that left the service in [w]. *)
Definition afterSign (s : State) (w : World) (req : AsymmetricSignRequest)
  : State :=
  {| handles := handles s; remote := w;
     trace := trace s ++ [EvAsymmetricSign req KMS_REQUEST_OPTIONS] |}.

(** The event of one call of [_retrieveKMSPublicKey] for [name]. *)
Definition attempt (name : string) : Event :=
  EvGetPublicKey {| pk_name := name |} {| maxRetries := 3; timeout := 300 |}.

(** The state [s] once the events [evs] have happened and the service has
    moved to [w]. *)
Definition extend (s : State) (w : World) (evs : list Event) : State :=
  {| handles := handles s; remote := w; trace := trace s ++ evs |}.

(** The detail lists a violation of type [KEY_PENDING_GENERATION]. *)
Definition carriesPendingViolation (d : StatusDetail) : Prop :=
  exists vs v,
    violations d = Some vs /\ In v vs
    /\ type v = "KEY_PENDING_GENERATION".

(** The error has a status detail that lists a violation of type
    [KEY_PENDING_GENERATION]. *)
Definition pendingGeneration (err : JsError) : Prop :=
  exists details,
    statusDetailsOf err = Some details
    /\ Exists carriesPendingViolation details.

(** The key path a remote call names; a delay names none. *)
Definition eventKeyPath (e : Event) : option string :=
  match e with
  | EvAsymmetricSign req _ => Some (req_name req)
  | EvGetPublicKey req _ => Some (pk_name req)
  | EvSleep _ => None
  end.

(** What a caller and the remote service can observe of a run: the state
    of the service, the trace and the result. *)
Definition outcome {A} (r : State * (JsError + A))
  : World * list Event * (JsError + A) :=
  (remote (fst r), trace (fst r), snd r).

End Provider.

(** ** A concrete environment

    The definitions above are generic in [Imports].  To run them, this
    part gives CRC32C (Castagnoli, reflected polynomial [0x82F63B78]), the
    lenient base64 decoder of the runtime, and a scripted client whose
    replies are queued in advance. *)

Definition crc32c_bit (c : Z) : Z :=
  if Z.testbit c 0 then Z.lxor (Z.shiftr c 1) 0x82F63B78 else Z.shiftr c 1.

Definition crc32c_byte (crc : Z) (b : Byte.byte) : Z :=
  Nat.iter 8 crc32c_bit (Z.lxor crc (Z.of_N (Byte.to_N b))).

Definition crc32c (buf : Buffer) : Z :=
  Z.lxor (fold_left crc32c_byte buf 0xFFFFFFFF) 0xFFFFFFFF.

(** The value of a base64 digit; the URL-safe digits are accepted too. *)
Definition unbase64 (c : ascii) : option Z :=
  let n := Z.of_nat (nat_of_ascii c) in
  if in_range 65 90 c then Some (n - 65)
  else if in_range 97 122 c then Some (n - 97 + 26)
  else if in_range 48 57 c then Some (n - 48 + 52)
  else if (Ascii.eqb c "+" || Ascii.eqb c "-")%bool then Some 62
  else if (Ascii.eqb c "/" || Ascii.eqb c "_")%bool then Some 63
  else None.

(** The digits of [s] up to the first [=]; other characters are skipped. *)
Fixpoint sextets (s : string) : list Z :=
  match s with
  | EmptyString => []
  | String c s' =>
      if Ascii.eqb c "="%char then []
      else
        match unbase64 c with
        | Some v => v :: sextets s'
        | None => sextets s'
        end
  end.

Definition byte_of_Z (z : Z) : Byte.byte :=
  match Byte.of_N (Z.to_N (Z.land z 255)) with
  | Some b => b
  | None => Byte.x00
  end.

Fixpoint octets (l : list Z) : Buffer :=
  match l with
  | a :: b :: c :: d :: r =>
      byte_of_Z (Z.lor (Z.shiftl a 2) (Z.shiftr b 4))
      :: byte_of_Z (Z.lor (Z.shiftl b 4) (Z.shiftr c 2))
      :: byte_of_Z (Z.lor (Z.shiftl c 6) d)
      :: octets r
  | [a; b; c] =>
      [byte_of_Z (Z.lor (Z.shiftl a 2) (Z.shiftr b 4));
       byte_of_Z (Z.lor (Z.shiftl b 4) (Z.shiftr c 2))]
  | [a; b] => [byte_of_Z (Z.lor (Z.shiftl a 2) (Z.shiftr b 4))]
  | _ => []
  end.

Definition base64_decode (s : string) : Buffer := octets (sextets s).

(** Replies queued for the two remote operations, oldest first. *)
Record Script : Type := mkScript {
  signReplies : list (JsError + AsymmetricSignResponse);
  keyReplies : list (JsError + PublicKey)
}.

Definition scriptedImports : Imports :=
  {| World := Script;
     calculateCRC32C := crc32c;
     Buffer_from_base64 := base64_decode;
     KMS_REQUEST_OPTIONS := {| maxRetries := 10; timeout := 3000 |} |}.

#[export] Existing Instance scriptedImports.

(** A client that answers from the script and rejects once it is empty. *)
Definition scriptedClient : @KeyManagementServiceClient scriptedImports :=
  @mkClient scriptedImports
    (fun (w : Script) _ _ =>
       match signReplies w with
       | r :: rest =>
           ({| signReplies := rest; keyReplies := keyReplies w |}, r)
       | [] => (w, inl (ServiceError "UNAVAILABLE" None))
       end)
    (fun (w : Script) _ _ =>
       match keyReplies w with
       | r :: rest =>
           ({| signReplies := signReplies w; keyReplies := rest |}, r)
       | [] => (w, inl (ServiceError "UNAVAILABLE" None))
       end).

Definition scriptedProvider : GcpKmsRsaPssProvider :=
  newGcpKmsRsaPssProvider scriptedClient.

Definition samplePath : string :=
  "projects/p/locations/l/keyRings/r/cryptoKeys/k/cryptoKeyVersions/1".

Definition sampleHandle : GcpKmsRsaPssPrivateKey :=
  {| kmsKeyVersionPath := samplePath;
     hashingAlgorithm := "SHA-256";
     provider := scriptedProvider |}.

Definition sampleSignature : Buffer := [Byte.x01; Byte.x02; Byte.x03].

Definition samplePlaintext : ArrayBuffer := [Byte.x68; Byte.x69].

(** A state whose store holds the sample handle at every reference. *)
Definition scriptedState (w : Script) : State :=
  {| handles := fun _ => sampleHandle; remote := w; trace := [] |}.

Definition goodSignResponse : AsymmetricSignResponse :=
  {| resp_name := value samplePath;
     verifiedDataCrc32c := value true;
     signature := sampleSignature;
     signatureCrc32c := value {| int64_value := crc32c sampleSignature |} |}.

(** The error the service reports while a key version is being generated. *)
Definition pendingError : JsError :=
  ServiceError "FAILED_PRECONDITION"
    (Some [ {| violations :=
                 Some [ {| type := "KEY_PENDING_GENERATION";
                           description := "key is pending generation" |} ] |} ]).

Definition samplePem : string :=
  "-----BEGIN PUBLIC KEY-----" ++ String newline "AAA="
  ++ String newline "-----END PUBLIC KEY-----".

(** A response that passes the first two checks and lacks the checksum of
    the signature. *)
Definition responseWithoutChecksum : AsymmetricSignResponse :=
  {| resp_name := value samplePath;
     verifiedDataCrc32c := value true;
     signature := sampleSignature;
     signatureCrc32c := null |}.

(** A response that echoes another key version. *)
Definition responseOfOtherKey : AsymmetricSignResponse :=
  {| resp_name := value "projects/p/locations/l/keyRings/r/cryptoKeys/k/cryptoKeyVersions/2";
     verifiedDataCrc32c := value true;
     signature := sampleSignature;
     signatureCrc32c := value {| int64_value := crc32c sampleSignature |} |}.

Definition pss (saltLength : Z) : RsaPssParams :=
  {| alg_name := "RSA-PSS"; saltLength := saltLength |}.

Definition responseUnverified : AsymmetricSignResponse :=
  {| resp_name := value samplePath;
     verifiedDataCrc32c := value false;
     signature := sampleSignature;
     signatureCrc32c := value {| int64_value := crc32c sampleSignature |} |}.

Definition responseWithWrongChecksum : AsymmetricSignResponse :=
  {| resp_name := value samplePath;
     verifiedDataCrc32c := value true;
     signature := sampleSignature;
     signatureCrc32c := value {| int64_value := crc32c sampleSignature - 1 |} |}.

(** States of the scripted service with one sign reply, or with the given
    public-key replies, queued. *)
Definition signScript (r : JsError + AsymmetricSignResponse) : State :=
  scriptedState {| signReplies := [r]; keyReplies := [] |}.

Definition keyScript (l : list (JsError + PublicKey)) : State :=
  scriptedState {| signReplies := []; keyReplies := l |}.

Definition unavailable : JsError := ServiceError "UNAVAILABLE" None.

(** A client that gives the same two replies whatever the state. *)
Definition steadyClient (signReply : JsError + AsymmetricSignResponse)
    (keyReply : JsError + PublicKey)
  : @KeyManagementServiceClient scriptedImports :=
  @mkClient scriptedImports
    (fun (w : Script) _ _ => (w, signReply))
    (fun (w : Script) _ _ => (w, keyReply)).

(** The sample handle with another hash algorithm. *)
Definition sampleHandleSha512 : GcpKmsRsaPssPrivateKey :=
  {| kmsKeyVersionPath := samplePath;
     hashingAlgorithm := "SHA-512";
     provider := scriptedProvider |}.

(** A rejection whose details list the pending-generation violation and
    also hold an entry without violations. *)
Definition mixedDetailsError : JsError :=
  ServiceError "FAILED_PRECONDITION"
    (Some [ {| violations :=
                 Some [ {| type := "KEY_PENDING_GENERATION";
                           description := "key is pending generation" |} ] |};
            {| violations := None |} ]).

Definition digits_123456789 : Buffer :=
  [Byte.x31; Byte.x32; Byte.x33; Byte.x34; Byte.x35; Byte.x36; Byte.x37;
   Byte.x38; Byte.x39].

(** * Properties *)

Section Properties.
Context {I : Imports}.

(** ** Shared lemmas *)

Lemma value_is_true (x : Nullable string) (s : string) :
  value_is x s = true <-> x = value s.
Proof.
  destruct x as [| | a]; simpl; split; intro H; try discriminate.
  - apply String.eqb_eq in H. now subst.
  - injection H as ->. apply String.eqb_refl.
Qed.

Lemma falsy_false (b : Nullable bool) :
  falsy b = false <-> b = value true.
Proof.
  destruct b as [| | [|]]; simpl; split; intro H; congruence.
Qed.

Lemma includes_supported (n : Z) :
  includes SUPPORTED_SALT_LENGTHS n = true <-> n = 32 \/ n = 64.
Proof.
  unfold includes, SUPPORTED_SALT_LENGTHS.
  change (256 / 8) with 32. change (512 / 8) with 64. simpl.
  rewrite !orb_true_iff, !Z.eqb_eq. intuition congruence.
Qed.

Lemma remoteCalls_app (t u : list Event) :
  remoteCalls (t ++ u) = (remoteCalls t + remoteCalls u)%nat.
Proof.
  unfold remoteCalls. now rewrite filter_app, length_app.
Qed.

Ltac run_sign :=
  unfold kmsSign, wrapGCPCallError, try_catch, bind, call_asymmetricSign,
    get_kmsKeyVersionPath, throw, ret, signRequest, afterSign in *;
  cbn [handles remote trace fst snd] in *.

(** What [kmsSign] does once the remote call has resolved. *)
Lemma kmsSign_resolved this plaintext ref s w response :
  asymmetricSign (kmsClient this) (remote s) (signRequest s ref plaintext)
    KMS_REQUEST_OPTIONS = (w, inr response) ->
  kmsSign this plaintext ref s =
    let s' := afterSign s w (signRequest s ref plaintext) in
    if negb (value_is (resp_name response) (kmsKeyVersionPath (handles s ref)))
    then (s', inl (KmsError ("KMS used the wrong key version ("
                             ++ interpolate (resp_name response) ++ ")") None))
    else if falsy (verifiedDataCrc32c response)
    then (s', inl (KmsError "KMS failed to verify plaintext CRC32C checksum"
                            None))
    else
      match signatureCrc32c response with
      | value crc =>
          if negb (calculateCRC32C (signature response) =? int64_value crc)
          then (s', inl (KmsError
            "Signature CRC32C checksum does not match one received from KMS"
            None))
          else (s', inr (signature response))
      | null =>
          (s', inl (TypeError
             "Cannot read properties of null (reading 'value')"))
      | undefined =>
          (s', inl (TypeError
             "Cannot read properties of undefined (reading 'value')"))
      end.
Proof.
  intro Hcall. run_sign. rewrite Hcall. cbn [handles remote trace].
  destruct (value_is _ _); cbn [negb]; [| reflexivity].
  destruct (falsy _); [reflexivity |].
  destruct (signatureCrc32c response) as [| | crc]; try reflexivity.
  unfold Number, bufferToArrayBuffer.
  destruct (_ =? _); reflexivity.
Qed.

(** What [kmsSign] does when the remote call is rejected. *)
Lemma kmsSign_rejected this plaintext ref s w cause :
  asymmetricSign (kmsClient this) (remote s) (signRequest s ref plaintext)
    KMS_REQUEST_OPTIONS = (w, inl cause) ->
  kmsSign this plaintext ref s =
    (afterSign s w (signRequest s ref plaintext),
     inl (KmsError "KMS signature request failed" (Some cause))).
Proof.
  intro Hcall. run_sign. now rewrite Hcall.
Qed.

(** [onSign] on a key handle with a supported salt length is [kmsSign]. *)
Lemma onSign_supported this algorithm ref data s :
  saltLength algorithm = 32 \/ saltLength algorithm = 64 ->
  onSign this algorithm (GcpKmsKey ref) data s =
  kmsSign this (Buffer_from data) ref s.
Proof.
  intro H. apply includes_supported in H. unfold onSign. now rewrite H.
Qed.

Lemma onSign_unsupported this algorithm ref data s :
  includes SUPPORTED_SALT_LENGTHS (saltLength algorithm) = false ->
  onSign this algorithm (GcpKmsKey ref) data s =
  (s, inl (KmsError ("Unsupported salt length of "
                     ++ string_of_Z (saltLength algorithm) ++ " octets")
                    None)).
Proof.
  intro H. unfold onSign. now rewrite H.
Qed.

(** ** The sign operation *)

(** C1: on a key handle, with a salt length of 32 or 64 octets, when the
    remote response echoes the requested key path, reports the plaintext
    checksum as verified and reports as signature checksum the CRC32C
    computed locally over the returned signature, [onSign] succeeds and
    returns exactly the signature bytes of the response; one remote call
    was made. *)
Theorem sign_returns_verified_signature
    this algorithm ref data s w response :
  saltLength algorithm = 32 \/ saltLength algorithm = 64 ->
  asymmetricSign (kmsClient this) (remote s)
    (signRequest s ref (Buffer_from data)) KMS_REQUEST_OPTIONS
    = (w, inr response) ->
  resp_name response = value (kmsKeyVersionPath (handles s ref)) ->
  verifiedDataCrc32c response = value true ->
  signatureCrc32c response
    = value {| int64_value := calculateCRC32C (signature response) |} ->
  onSign this algorithm (GcpKmsKey ref) data s =
    (afterSign s w (signRequest s ref (Buffer_from data)),
     inr (signature response)).
Proof.
  intros Hsalt Hcall Hname Hflag Hcrc.
  rewrite (onSign_supported _ _ _ _ _ Hsalt).
  rewrite (kmsSign_resolved _ _ _ _ _ _ Hcall). cbv zeta.
  apply value_is_true in Hname. rewrite Hname.
  apply falsy_false in Hflag. rewrite Hflag.
  rewrite Hcrc. cbn [negb int64_value]. now rewrite Z.eqb_refl.
Qed.

(** C2: on a key handle, whenever the remote call resolves with a response
    that fails any one of the three integrity checks (echoed key path other
    than the requested one, plaintext checksum not reported verified,
    signature checksum other than the CRC32C computed locally over the
    returned signature), [onSign] fails: no signature is returned. *)
Theorem sign_rejects_untrusted_response
    this algorithm ref data s w response :
  asymmetricSign (kmsClient this) (remote s)
    (signRequest s ref (Buffer_from data)) KMS_REQUEST_OPTIONS
    = (w, inr response) ->
  resp_name response <> value (kmsKeyVersionPath (handles s ref))
  \/ verifiedDataCrc32c response <> value true
  \/ signatureCrc32c response
       <> value {| int64_value := calculateCRC32C (signature response) |} ->
  exists s' e, onSign this algorithm (GcpKmsKey ref) data s = (s', inl e).
Proof.
  intros Hcall Hbad.
  destruct (includes SUPPORTED_SALT_LENGTHS (saltLength algorithm)) eqn:Hsalt.
  2:{ rewrite (onSign_unsupported _ _ _ _ _ Hsalt). eauto. }
  apply includes_supported in Hsalt.
  rewrite (onSign_supported _ _ _ _ _ Hsalt).
  rewrite (kmsSign_resolved _ _ _ _ _ _ Hcall). cbv zeta.
  destruct (value_is _ _) eqn:Hname; cbn [negb]; [| eauto].
  destruct (falsy _) eqn:Hflag; [eauto |].
  destruct (signatureCrc32c response) as [| | [c]] eqn:Hcrc; [eauto | eauto |].
  cbn [int64_value].
  destruct (_ =? c) eqn:Heq; cbn [negb]; [| eauto].
  exfalso. apply value_is_true in Hname. apply falsy_false in Hflag.
  apply Z.eqb_eq in Heq. subst c.
  destruct Hbad as [H | [H | H]]; now apply H.
Qed.

(** C3: on a key handle, a salt length other than 32 and 64 octets makes
    [onSign] fail with the state untouched: the trace is the one before the
    call, so the remote service was not invoked. *)
Theorem sign_rejects_unsupported_salt_length this algorithm ref data s :
  saltLength algorithm <> 32 ->
  saltLength algorithm <> 64 ->
  onSign this algorithm (GcpKmsKey ref) data s =
    (s, inl (KmsError ("Unsupported salt length of "
                       ++ string_of_Z (saltLength algorithm) ++ " octets")
                      None))
  /\ remoteCalls (trace (fst (onSign this algorithm (GcpKmsKey ref) data s)))
     = remoteCalls (trace s).
Proof.
  intros H32 H64.
  assert (Hsalt : includes SUPPORTED_SALT_LENGTHS (saltLength algorithm)
                  = false).
  { destruct (includes _ _) eqn:E; [| reflexivity].
    apply includes_supported in E. tauto. }
  rewrite (onSign_unsupported _ _ _ _ _ Hsalt). now split.
Qed.

(** C10: a key that is not a key handle makes [onSign] fail with the
    unsupported-key-type error whatever the salt length, with the state
    untouched; and the unsupported-salt-length error only comes out for a
    key handle. *)
Theorem sign_checks_key_type_first this algorithm key data s :
  (forall constructor_name,
     key = OtherKey constructor_name ->
     onSign this algorithm key data s =
       (s, inl (KmsError ("Cannot sign with key of unsupported type ("
                          ++ constructor_name ++ ")") None)))
  /\ (forall s' n cause,
       onSign this algorithm key data s =
         (s', inl (KmsError ("Unsupported salt length of " ++ n ++ " octets")
                            cause)) ->
       exists ref, key = GcpKmsKey ref).
Proof.
  split.
  - intros name ->. reflexivity.
  - intros s' n cause H. destruct key as [ref | name]; [eauto |].
    cbn in H. discriminate H.
Qed.

(** ** Operations that are not offered *)

(** C5: [onGenerateKey], [onImportKey] and [onVerify] fail for every
    provider and in every state, and leave the state, hence the trace of
    remote calls, as it was. *)
Theorem unsupported_operations_always_fail this s :
  onGenerateKey this s
    = (s, inl (KmsError "Key generation is unsupported" None))
  /\ onImportKey this s
     = (s, inl (KmsError "Key import is unsupported" None))
  /\ onVerify this s
     = (s, inl (KmsError "Signature verification is unsupported" None)).
Proof.
  repeat split.
Qed.

(** ** Public key retrieval *)

Ltac run_export :=
  unfold retrieveKMSPublicKey, wrapGCPCallError, retrieveWhenReady,
    _retrieveKMSPublicKey, try_catch, bind, call_getPublicKey, lift, sleep,
    emit, throw, ret, extend, attempt in *;
  cbn [handles remote trace fst snd] in *.

Lemma hasPendingViolation_true (d : StatusDetail) :
  hasPendingViolation d = inr true <-> carriesPendingViolation d.
Proof.
  unfold hasPendingViolation, carriesPendingViolation.
  destruct (violations d) as [vs |].
  - split.
    + intro H. injection H as H.
      destruct (filter _ vs) as [| v l] eqn:Hf; [discriminate |].
      assert (Hin : In v (filter
        (fun v => String.eqb (type v) "KEY_PENDING_GENERATION") vs))
        by (rewrite Hf; now left).
      apply filter_In in Hin as [Hin Ht]. apply String.eqb_eq in Ht.
      exists vs, v. auto.
    + intros (vs' & v & Hvs & Hin & Ht). injection Hvs as <-.
      assert (Hf : In v (filter
        (fun v => String.eqb (type v) "KEY_PENDING_GENERATION") vs)).
      { apply filter_In. split; [assumption |]. now apply String.eqb_eq. }
      destruct (filter _ vs); [destruct Hf | reflexivity].
  - split; [discriminate |]. intros (vs & v & Hvs & _). discriminate.
Qed.

Lemma filter_details_resolved (l r : list StatusDetail) :
  filter_details l = inr r ->
  Forall (fun d => violations d <> None) l
  /\ (r <> [] <-> Exists carriesPendingViolation l).
Proof.
  revert r. induction l as [| d l IH]; intros r H.
  - injection H as <-. split; [constructor |].
    split; [congruence | intro E; inversion E].
  - cbn [filter_details] in H.
    destruct (hasPendingViolation d) as [e | b] eqn:Hd; [discriminate |].
    destruct (filter_details l) as [e | r'] eqn:Hl; [discriminate |].
    injection H as <-. destruct (IH r' eq_refl) as [Hall Hex].
    assert (Hv : violations d <> None).
    { unfold hasPendingViolation in Hd.
      destruct (violations d); [discriminate | discriminate]. }
    split; [now constructor |].
    destruct b.
    + split; [| discriminate]. intros _. left.
      now apply hasPendingViolation_true.
    + split.
      * intro Hr. right. now apply Hex.
      * intro E. inversion E as [? ? Hc | ? ? Hc]; subst.
        -- apply hasPendingViolation_true in Hc. congruence.
        -- now apply Hex.
Qed.

Lemma filter_details_thrown (l : list StatusDetail) (e : JsError) :
  filter_details l = inl e ->
  ~ Forall (fun d => violations d <> None) l.
Proof.
  induction l as [| d l IH]; intros H Hall; [discriminate |].
  inversion Hall as [| ? ? Hd Hl]; subst.
  cbn [filter_details] in H. unfold hasPendingViolation in H.
  destruct (violations d); [| congruence].
  destruct (filter_details l) as [e' | r]; [| discriminate].
  now apply IH.
Qed.

(** The errors that [isKeyPendingCreation] classifies as pending
    generation: those with [statusDetails] in which every detail has a
    list of violations and some detail lists one of type
    [KEY_PENDING_GENERATION]. *)
Lemma isKeyPendingCreation_true (err : JsError) :
  isKeyPendingCreation err = inr true <->
  exists details,
    statusDetailsOf err = Some details
    /\ Forall (fun d => violations d <> None) details
    /\ Exists carriesPendingViolation details.
Proof.
  unfold isKeyPendingCreation. split.
  - intro H. destruct (statusDetailsOf err) as [details |].
    + exists details. split; [reflexivity |].
      destruct (filter_details details) as [e | r] eqn:Hf; [discriminate |].
      destruct (filter_details_resolved _ _ Hf) as [Hall Hex].
      split; [assumption |]. apply Hex.
      destruct r; [discriminate | discriminate].
    + discriminate.
  - intros (details & -> & Hall & Hex).
    destruct (filter_details details) as [e | r] eqn:Hf.
    + now elim (filter_details_thrown _ _ Hf).
    + destruct (filter_details_resolved _ _ Hf) as [_ Hr].
      apply Hr in Hex. destruct r; [congruence | reflexivity].
Qed.

Lemma retrieveWhenReady_first_resolved name client s w1 response :
  getPublicKey client (remote s) {| pk_name := name |}
    {| maxRetries := 3; timeout := 300 |} = (w1, inr response) ->
  retrieveWhenReady name client s
    = (extend s w1 [attempt name], inr (pem response)).
Proof.
  intro H1. run_export. now rewrite H1.
Qed.

Lemma retrieveWhenReady_not_pending name client s w1 err :
  getPublicKey client (remote s) {| pk_name := name |}
    {| maxRetries := 3; timeout := 300 |} = (w1, inl err) ->
  isKeyPendingCreation err <> inr true ->
  exists e,
    retrieveWhenReady name client s = (extend s w1 [attempt name], inl e)
    /\ (isKeyPendingCreation err = inr false -> e = err)
    /\ (forall e', isKeyPendingCreation err = inl e' -> e = e').
Proof.
  intros H1 Hcls. run_export. rewrite H1.
  destruct (isKeyPendingCreation err) as [e' | [|]].
  - exists e'. repeat split; congruence.
  - congruence.
  - exists err. repeat split; congruence.
Qed.

Lemma retrieveWhenReady_pending name client s w1 err w2 second :
  getPublicKey client (remote s) {| pk_name := name |}
    {| maxRetries := 3; timeout := 300 |} = (w1, inl err) ->
  isKeyPendingCreation err = inr true ->
  getPublicKey client w1 {| pk_name := name |}
    {| maxRetries := 3; timeout := 300 |} = (w2, second) ->
  retrieveWhenReady name client s
    = (extend s w2 [attempt name; EvSleep 500; attempt name],
       match second with
       | inl err2 => inl err2
       | inr response => inr (pem response)
       end).
Proof.
  intros H1 Hcls H2. run_export. rewrite H1, Hcls. cbn [negb remote trace].
  rewrite H2. rewrite <- !app_assoc. cbn [app].
  destruct second; reflexivity.
Qed.

(** [retrieveKMSPublicKey] in terms of what [retrieveWhenReady] gives. *)
Lemma retrieveKMSPublicKey_unfold name client s :
  retrieveKMSPublicKey name client s =
    match retrieveWhenReady name client s with
    | (s', inl e) =>
        (s', inl (KmsError "Failed to retrieve public key" (Some e)))
    | (s', inr (value pemText)) => (s', inr (pemToDer pemText))
    | (s', inr null) =>
        (s', inl (TypeError
           "Cannot read properties of null (reading 'toString')"))
    | (s', inr undefined) =>
        (s', inl (TypeError
           "Cannot read properties of undefined (reading 'toString')"))
    end.
Proof.
  unfold retrieveKMSPublicKey, wrapGCPCallError, try_catch, bind, throw, ret,
    bufferToArrayBuffer.
  destruct (retrieveWhenReady name client s) as [s' [e | [| | p]]];
    reflexivity.
Qed.

Lemma onExportKey_handle this ref s :
  onExportKey this spki (GcpKmsKey ref) s =
  retrieveKMSPublicKey (kmsKeyVersionPath (handles s ref)) (kmsClient this) s.
Proof.
  reflexivity.
Qed.

(** The attempts of an export, in terms of the answer of
    [isKeyPendingCreation] (characterised by [isKeyPendingCreation_true]):
    an export on a key handle makes one retrieval attempt, or two with
    the fixed delay of 500 ms between them, and nothing else.  The second
    attempt is made exactly when the first one is rejected with an error
    for which [isKeyPendingCreation] returns [true]; then the
    outcome of the second attempt is final, and a rejection of it, pending
    or not, is the failure of the export.  A first rejection that is not so
    classified is final after that one attempt. *)
Theorem export_retries_pending_key_once this ref s :
  let name := kmsKeyVersionPath (handles s ref) in
  let request := {| pk_name := name |} in
  let options := {| maxRetries := 3; timeout := 300 |} in
  let result := onExportKey this spki (GcpKmsKey ref) s in
  (exists w evs,
     fst result = extend s w evs
     /\ (evs = [attempt name]
         \/ evs = [attempt name; EvSleep 500; attempt name])
     /\ (remoteCalls (trace (fst result)) <= remoteCalls (trace s) + 2)%nat)
  /\ (forall w1 err w2 second,
        getPublicKey (kmsClient this) (remote s) request options
          = (w1, inl err) ->
        isKeyPendingCreation err = inr true ->
        getPublicKey (kmsClient this) w1 request options = (w2, second) ->
        fst result = extend s w2 [attempt name; EvSleep 500; attempt name]
        /\ (forall err2,
              second = inl err2 ->
              snd result
                = inl (KmsError "Failed to retrieve public key" (Some err2)))
        /\ (forall pemText,
              second = inr {| pem := value pemText |} ->
              snd result = inr (pemToDer pemText)))
  /\ (forall w1 err,
        getPublicKey (kmsClient this) (remote s) request options
          = (w1, inl err) ->
        isKeyPendingCreation err <> inr true ->
        fst result = extend s w1 [attempt name]
        /\ exists e,
             snd result
               = inl (KmsError "Failed to retrieve public key" (Some e)))
  /\ (forall w1 response,
        getPublicKey (kmsClient this) (remote s) request options
          = (w1, inr response) ->
        fst result = extend s w1 [attempt name]).
Proof.
  intros name request options result.
  assert (Hsecond : forall w1 err w2 second,
    getPublicKey (kmsClient this) (remote s) request options
      = (w1, inl err) ->
    isKeyPendingCreation err = inr true ->
    getPublicKey (kmsClient this) w1 request options = (w2, second) ->
    fst result = extend s w2 [attempt name; EvSleep 500; attempt name]
    /\ (forall err2,
          second = inl err2 ->
          snd result
            = inl (KmsError "Failed to retrieve public key" (Some err2)))
    /\ (forall pemText,
          second = inr {| pem := value pemText |} ->
          snd result = inr (pemToDer pemText))).
  { intros w1 err w2 second H1 Hcls H2. subst result.
    rewrite onExportKey_handle, retrieveKMSPublicKey_unfold.
    fold name.
    rewrite (retrieveWhenReady_pending _ _ _ _ _ _ _ H1 Hcls H2).
    split; [| split].
    - destruct second as [e2 | [[| | p]]]; reflexivity.
    - intros err2 ->. reflexivity.
    - intros p ->. reflexivity. }
  assert (Hfinal : forall w1 err,
    getPublicKey (kmsClient this) (remote s) request options
      = (w1, inl err) ->
    isKeyPendingCreation err <> inr true ->
    fst result = extend s w1 [attempt name]
    /\ exists e,
         snd result
           = inl (KmsError "Failed to retrieve public key" (Some e))).
  { intros w1 err H1 Hcls. subst result.
    rewrite onExportKey_handle, retrieveKMSPublicKey_unfold.
    fold name.
    destruct (retrieveWhenReady_not_pending _ _ _ _ _ H1 Hcls)
      as (e & -> & _).
    split; [reflexivity | eexists; reflexivity]. }
  assert (Hfirst : forall w1 response,
    getPublicKey (kmsClient this) (remote s) request options
      = (w1, inr response) ->
    fst result = extend s w1 [attempt name]).
  { intros w1 response H1. subst result.
    rewrite onExportKey_handle, retrieveKMSPublicKey_unfold.
    fold name.
    rewrite (retrieveWhenReady_first_resolved _ _ _ _ _ H1).
    destruct (pem response); reflexivity. }
  split; [| auto].
  destruct (getPublicKey (kmsClient this) (remote s) request options)
    as [w1 [err | response]] eqn:H1.
  - destruct (isKeyPendingCreation err) as [e' | [|]] eqn:Hcls.
    + assert (Hn : isKeyPendingCreation err <> inr true) by congruence.
      destruct (Hfinal w1 err eq_refl Hn) as [-> _].
      exists w1, [attempt name]. split; [reflexivity |]. split; [now left |].
      cbn [extend trace]. rewrite remoteCalls_app. cbn. lia.
    + destruct (getPublicKey (kmsClient this) w1 request options)
        as [w2 second] eqn:H2.
      destruct (Hsecond w1 err w2 second eq_refl Hcls H2) as [-> _].
      exists w2, [attempt name; EvSleep 500; attempt name].
      split; [reflexivity |]. split; [now right |].
      cbn [extend trace]. rewrite remoteCalls_app. cbn. lia.
    + assert (Hn : isKeyPendingCreation err <> inr true) by congruence.
      destruct (Hfinal w1 err eq_refl Hn) as [-> _].
      exists w1, [attempt name]. split; [reflexivity |]. split; [now left |].
      cbn [extend trace]. rewrite remoteCalls_app. cbn. lia.
  - rewrite (Hfirst w1 response eq_refl).
    exists w1, [attempt name]. split; [reflexivity |]. split; [now left |].
    cbn [extend trace]. rewrite remoteCalls_app. cbn. lia.
Qed.

(** C6: an export in a format other than [spki] fails with the state
    untouched, and so does an [spki] export of a key that is not a key
    handle: the remote service is not called.  An [spki] export of a key
    handle is the remote retrieval for the handle's key path, and returns
    the binary form of the PEM text that the retrieval yields. *)
Theorem export_requires_spki_and_key_handle this format key s :
  (format <> spki ->
   onExportKey this format key s
     = (s, inl (KmsError "Private key cannot be exported" None)))
  /\ (forall constructor_name,
        format = spki ->
        key = OtherKey constructor_name ->
        onExportKey this format key s
          = (s, inl (KmsError "Key is not managed by KMS" None)))
  /\ (forall ref,
        format = spki ->
        key = GcpKmsKey ref ->
        onExportKey this format key s
          = retrieveKMSPublicKey (kmsKeyVersionPath (handles s ref))
              (kmsClient this) s
        /\ forall s' pemText,
             retrieveWhenReady (kmsKeyVersionPath (handles s ref))
               (kmsClient this) s = (s', inr (value pemText)) ->
             onExportKey this format key s
               = (s', inr (bufferToArrayBuffer (pemToDer pemText)))).
Proof.
  split; [| split].
  - intro H. destruct format; try reflexivity. now elim H.
  - intros name -> ->. reflexivity.
  - intros ref -> ->. split; [reflexivity |].
    intros s' pemText H.
    rewrite onExportKey_handle, retrieveKMSPublicKey_unfold, H.
    reflexivity.
Qed.

(** ** The key handle *)

Lemma onSign_state this algorithm key data s :
  fst (onSign this algorithm key data s) = s
  \/ exists ref w,
       key = GcpKmsKey ref
       /\ fst (onSign this algorithm key data s)
          = afterSign s w (signRequest s ref (Buffer_from data)).
Proof.
  destruct key as [ref | name]; [| now left].
  destruct (includes SUPPORTED_SALT_LENGTHS (saltLength algorithm)) eqn:Hsalt.
  2:{ left. now rewrite (onSign_unsupported _ _ _ _ _ Hsalt). }
  apply includes_supported in Hsalt.
  rewrite (onSign_supported _ _ _ _ _ Hsalt).
  right. exists ref.
  destruct (asymmetricSign (kmsClient this) (remote s)
              (signRequest s ref (Buffer_from data)) KMS_REQUEST_OPTIONS)
    as [w [cause | response]] eqn:Hcall; exists w; split; try reflexivity.
  - now rewrite (kmsSign_rejected _ _ _ _ _ _ Hcall).
  - rewrite (kmsSign_resolved _ _ _ _ _ _ Hcall). cbv zeta.
    destruct (negb _); [reflexivity |].
    destruct (falsy _); [reflexivity |].
    destruct (signatureCrc32c response); try reflexivity.
    destruct (negb _); reflexivity.
Qed.

Lemma retrieveKMSPublicKey_state name client s :
  exists w evs,
    fst (retrieveKMSPublicKey name client s) = extend s w evs
    /\ (evs = [attempt name]
        \/ evs = [attempt name; EvSleep 500; attempt name]).
Proof.
  rewrite retrieveKMSPublicKey_unfold.
  destruct (getPublicKey client (remote s) {| pk_name := name |}
              {| maxRetries := 3; timeout := 300 |})
    as [w1 [err | response]] eqn:H1.
  - destruct (isKeyPendingCreation err) as [e' | [|]] eqn:Hcls.
    + assert (Hn : isKeyPendingCreation err <> inr true) by congruence.
      destruct (retrieveWhenReady_not_pending _ _ _ _ _ H1 Hn) as (e & -> & _).
      exists w1, [attempt name]. split; [reflexivity | now left].
    + destruct (getPublicKey client w1 {| pk_name := name |}
                  {| maxRetries := 3; timeout := 300 |})
        as [w2 second] eqn:H2.
      rewrite (retrieveWhenReady_pending _ _ _ _ _ _ _ H1 Hcls H2).
      exists w2, [attempt name; EvSleep 500; attempt name].
      split; [| now right].
      destruct second as [e2 | [[| | pemText]]]; reflexivity.
    + assert (Hn : isKeyPendingCreation err <> inr true) by congruence.
      destruct (retrieveWhenReady_not_pending _ _ _ _ _ H1 Hn) as (e & -> & _).
      exists w1, [attempt name]. split; [reflexivity | now left].
  - rewrite (retrieveWhenReady_first_resolved _ _ _ _ _ H1).
    exists w1, [attempt name]. split; [| now left].
    destruct (pem response); reflexivity.
Qed.

Lemma onExportKey_state this format key s :
  fst (onExportKey this format key s) = s
  \/ exists ref w evs,
       key = GcpKmsKey ref
       /\ fst (onExportKey this format key s) = extend s w evs
       /\ (evs = [attempt (kmsKeyVersionPath (handles s ref))]
           \/ evs = [attempt (kmsKeyVersionPath (handles s ref));
                     EvSleep 500;
                     attempt (kmsKeyVersionPath (handles s ref))]).
Proof.
  destruct format; try now left.
  destruct key as [ref | name]; [| now left].
  right. exists ref. rewrite onExportKey_handle.
  destruct (retrieveKMSPublicKey_state (kmsKeyVersionPath (handles s ref))
              (kmsClient this) s) as (w & evs & Hst & Hevs).
  exists w, evs. auto.
Qed.

Lemma onSign_same_path this algorithm ref data s s2 :
  remote s2 = remote s ->
  trace s2 = trace s ->
  kmsKeyVersionPath (handles s2 ref) = kmsKeyVersionPath (handles s ref) ->
  outcome (onSign this algorithm (GcpKmsKey ref) data s2)
    = outcome (onSign this algorithm (GcpKmsKey ref) data s).
Proof.
  intros Hremote Htrace Hpath. unfold onSign.
  destruct (negb _); [unfold throw, outcome; cbn; congruence |].
  unfold outcome. run_sign. rewrite Hremote, Htrace, Hpath.
  destruct (asymmetricSign _ _ _ _) as [w [cause | response]];
    cbn [fst snd handles remote trace]; [reflexivity |].
  rewrite Hpath.
  destruct (negb _); [reflexivity |].
  destruct (falsy _); [reflexivity |].
  destruct (signatureCrc32c response); try reflexivity.
  destruct (negb _); reflexivity.
Qed.

Lemma onExportKey_same_path this format ref s s2 :
  remote s2 = remote s ->
  trace s2 = trace s ->
  kmsKeyVersionPath (handles s2 ref) = kmsKeyVersionPath (handles s ref) ->
  outcome (onExportKey this format (GcpKmsKey ref) s2)
    = outcome (onExportKey this format (GcpKmsKey ref) s).
Proof.
  intros Hremote Htrace Hpath. unfold onExportKey.
  destruct (negb _); [unfold throw, outcome; cbn; congruence |].
  unfold outcome, get_kmsKeyVersionPath. run_export.
  rewrite Hremote, Htrace, Hpath.
  destruct (getPublicKey _ _ _ _) as [w1 [err | response]];
    cbn [fst snd handles remote trace].
  - destruct (isKeyPendingCreation err) as [e | [|]];
      cbn [negb fst snd handles remote trace]; try reflexivity.
    destruct (getPublicKey _ _ _ _) as [w2 [err2 | response2]];
      cbn [fst snd handles remote trace]; [reflexivity |].
    destruct (pem response2); reflexivity.
  - destruct (pem response); reflexivity.
Qed.

(** C9: [onSign] and [onExportKey] leave the store of key handles as it
    was, so the [kmsKeyVersionPath], the [hashingAlgorithm] and the
    [provider] of every handle are unchanged; and every remote call they
    make names the [kmsKeyVersionPath] of the handle they were given, as
    it is stored.  Two runs on handles with the same [kmsKeyVersionPath]
    make the same remote calls and give the same result, whatever the
    other fields of the handles. *)
Theorem key_handle_is_read_only this algorithm format key data s :
  handles (fst (onSign this algorithm key data s)) = handles s
  /\ handles (fst (onExportKey this format key s)) = handles s
  /\ (forall ref,
        key = GcpKmsKey ref ->
        exists signEvents exportEvents : list Event,
          trace (fst (onSign this algorithm key data s))
            = (trace s ++ signEvents)%list
          /\ trace (fst (onExportKey this format key s))
             = (trace s ++ exportEvents)%list
          /\ forall e path,
               In e (signEvents ++ exportEvents)%list ->
               eventKeyPath e = Some path ->
               path = kmsKeyVersionPath (handles s ref))
  /\ (forall ref s2,
        key = GcpKmsKey ref ->
        remote s2 = remote s ->
        trace s2 = trace s ->
        kmsKeyVersionPath (handles s2 ref)
          = kmsKeyVersionPath (handles s ref) ->
        outcome (onSign this algorithm key data s2)
          = outcome (onSign this algorithm key data s)
        /\ outcome (onExportKey this format key s2)
           = outcome (onExportKey this format key s)).
Proof.
  split; [| split; [| split]]; cycle 3.
  { intros ref s2 -> Hremote Htrace Hpath. split.
    - apply onSign_same_path; assumption.
    - apply onExportKey_same_path; assumption. }
  - destruct (onSign_state this algorithm key data s)
      as [-> | (ref & w & _ & ->)]; reflexivity.
  - destruct (onExportKey_state this format key s)
      as [-> | (ref & w & evs & _ & -> & _)]; reflexivity.
  - intros ref ->.
    assert (Hsign : exists signEvents : list Event,
      trace (fst (onSign this algorithm (GcpKmsKey ref) data s))
        = (trace s ++ signEvents)%list
      /\ forall e path, In e signEvents -> eventKeyPath e = Some path ->
           path = kmsKeyVersionPath (handles s ref)).
    { destruct (onSign_state this algorithm (GcpKmsKey ref) data s)
        as [-> | (ref' & w & Hkey & ->)].
      - exists []. split; [now rewrite app_nil_r | intros e path []].
      - injection Hkey as <-. eexists. split; [reflexivity |].
        intros e path [<- | []] Hpath. cbn in Hpath. congruence. }
    assert (Hexport : exists exportEvents : list Event,
      trace (fst (onExportKey this format (GcpKmsKey ref) s))
        = (trace s ++ exportEvents)%list
      /\ forall e path, In e exportEvents -> eventKeyPath e = Some path ->
           path = kmsKeyVersionPath (handles s ref)).
    { destruct (onExportKey_state this format (GcpKmsKey ref) s)
        as [-> | (ref' & w & evs & Hkey & -> & Hevs)].
      - exists []. split; [now rewrite app_nil_r | intros e path []].
      - injection Hkey as <-. exists evs. split; [reflexivity |].
        intros e path Hin Hpath.
        destruct Hevs as [-> | ->]; cbn in Hin;
          repeat (destruct Hin as [<- | Hin]; [cbn in Hpath; congruence |]);
          destruct Hin. }
    destruct Hsign as (signEvents & Hs & Hsp).
    destruct Hexport as (exportEvents & He & Hep).
    exists signEvents, exportEvents. repeat split; try assumption.
    intros e path Hin. apply in_app_or in Hin. destruct Hin; eauto.
Qed.

(** ** PEM decoding *)

Lemma length_append (a b : string) :
  String.length (a ++ b) = (String.length a + String.length b)%nat.
Proof.
  induction a as [| c a IH]; simpl; [reflexivity | now rewrite IH].
Qed.

Lemma append_assoc (a b c : string) : (a ++ b) ++ c = a ++ b ++ c.
Proof.
  induction a as [| x a IH]; simpl; [reflexivity | now rewrite IH].
Qed.

Lemma replace_framing_skip (a b : string) :
  replace_framing (String.length a) (a ++ b) = replace_framing 0 b.
Proof.
  induction a as [| c a IH]; simpl; [reflexivity | exact IH].
Qed.

Lemma replace_framing_scan (c : ascii) (s' : string) :
  replace_framing 0 (String c s') =
    match match_framing (String c s') with
    | Some rest =>
        replace_framing (String.length s' - String.length rest) s'
    | None =>
        if Ascii.eqb c newline then replace_framing 0 s'
        else String c (replace_framing 0 s')
    end.
Proof.
  reflexivity.
Qed.

Lemma skip_label_stops (label rest : string) :
  string_forallb is_label_char label = true ->
  skip_label (label ++ String "-" rest) = String "-" rest.
Proof.
  induction label as [| c label IH]; simpl; intro H; [reflexivity |].
  apply andb_true_iff in H as [Hc Hl]. rewrite Hc. now apply IH.
Qed.

Lemma match_framing_label (label rest : string) :
  string_forallb is_label_char label = true ->
  match_framing ("-----" ++ label ++ "-----" ++ rest) = Some rest.
Proof.
  intro H. unfold match_framing.
  change (strip_prefix "-----" ("-----" ++ label ++ "-----" ++ rest))
    with (Some (label ++ String "-" ("----" ++ rest))).
  cbv iota beta. now rewrite (skip_label_stops _ _ H).
Qed.

(** A framing line is removed whole. *)
Lemma replace_framing_label (label rest : string) :
  string_forallb is_label_char label = true ->
  replace_framing 0 ("-----" ++ label ++ "-----" ++ rest)
    = replace_framing 0 rest.
Proof.
  intro H.
  change ("-----" ++ label ++ "-----" ++ rest)
    with (String "-" ("----" ++ label ++ "-----" ++ rest)).
  rewrite replace_framing_scan.
  change (String "-" ("----" ++ label ++ "-----" ++ rest))
    with ("-----" ++ label ++ "-----" ++ rest).
  rewrite (match_framing_label _ _ H).
  replace (String.length ("----" ++ label ++ "-----" ++ rest)
           - String.length rest)%nat
    with (String.length ("----" ++ label ++ "-----")).
  - replace ("----" ++ label ++ "-----" ++ rest)
      with (("----" ++ label ++ "-----") ++ rest).
    + apply replace_framing_skip.
    + cbn. now rewrite append_assoc.
  - cbn [String.append String.length]. rewrite !length_append.
    cbn [String.length].
    generalize (String.length label) (String.length rest). intros a b. lia.
Qed.

(** Text without dashes loses its newlines and nothing else. *)
Lemma replace_framing_body (body rest : string) :
  string_forallb not_dash body = true ->
  replace_framing 0 (body ++ rest)
    = drop_newlines body ++ replace_framing 0 rest.
Proof.
  induction body as [| c body IH]; intro H; [reflexivity |].
  cbn [string_forallb] in H. apply andb_true_iff in H as [Hc Hb].
  change (String c body ++ rest) with (String c (body ++ rest)).
  rewrite replace_framing_scan.
  assert (Hno : match_framing (String c (body ++ rest)) = None).
  { unfold match_framing. cbn [strip_prefix].
    unfold not_dash in Hc. apply negb_true_iff in Hc.
    rewrite Ascii.eqb_sym in Hc. now rewrite Hc. }
  rewrite Hno. cbn [drop_newlines].
  destruct (Ascii.eqb c newline); cbn; now rewrite (IH Hb).
Qed.

Lemma append_empty (a : string) : a ++ "" = a.
Proof.
  induction a as [| c a IH]; simpl; [reflexivity | now rewrite IH].
Qed.

(** C8: [pemToDer] is the base64 decoding of the text left once framing
    lines and newlines are removed.  For a PEM text made of a header line,
    a body without dashes and a footer line, that text is the body without
    its newlines; in particular the PEM text with body [AAA=] decodes to
    the base64 decoding of [AAA=]. *)
Theorem pemToDer_strips_framing_and_newlines :
  (forall label1 label2 body,
     string_forallb is_label_char label1 = true ->
     string_forallb is_label_char label2 = true ->
     string_forallb not_dash body = true ->
     pemToDer ("-----" ++ label1 ++ "-----" ++ body
               ++ "-----" ++ label2 ++ "-----")
       = Buffer_from_base64 (drop_newlines body))
  /\ pemToDer ("-----BEGIN PUBLIC KEY-----"
               ++ String newline ("AAA="
               ++ String newline "-----END PUBLIC KEY-----"))
     = Buffer_from_base64 "AAA=".
Proof.
  split.
  - intros label1 label2 body H1 H2 Hb. unfold pemToDer. cbv zeta.
    rewrite (replace_framing_label _ _ H1).
    rewrite (replace_framing_body _ _ Hb).
    replace ("-----" ++ label2 ++ "-----")
      with ("-----" ++ label2 ++ "-----" ++ "") by reflexivity.
    rewrite (replace_framing_label _ _ H2). cbn [replace_framing].
    now rewrite append_empty.
  - reflexivity.
Qed.

(** ** Error surfacing *)

(** A PEM value that [retrieveWhenReady] returns comes from a response of
    the remote retrieval. *)
Lemma retrieveWhenReady_value name client s s' p :
  retrieveWhenReady name client s = (s', inr p) ->
  exists w request options w' response,
    getPublicKey client w request options = (w', inr response)
    /\ pem response = p.
Proof.
  intro H.
  destruct (getPublicKey client (remote s) {| pk_name := name |}
              {| maxRetries := 3; timeout := 300 |})
    as [w1 [err | response]] eqn:H1.
  - destruct (isKeyPendingCreation err) as [e' | [|]] eqn:Hcls.
    + assert (Hn : isKeyPendingCreation err <> inr true) by congruence.
      destruct (retrieveWhenReady_not_pending _ _ _ _ _ H1 Hn) as (e & He & _).
      congruence.
    + destruct (getPublicKey client w1 {| pk_name := name |}
                  {| maxRetries := 3; timeout := 300 |})
        as [w2 [err2 | response2]] eqn:H2;
        rewrite (retrieveWhenReady_pending _ _ _ _ _ _ _ H1 Hcls H2) in H;
        [discriminate |].
      injection H as _ <-. eauto 10.
    + assert (Hn : isKeyPendingCreation err <> inr true) by congruence.
      destruct (retrieveWhenReady_not_pending _ _ _ _ _ H1 Hn) as (e & He & _).
      congruence.
  - rewrite (retrieveWhenReady_first_resolved _ _ _ _ _ H1) in H.
    injection H as _ <-. eauto 10.
Qed.

(** C7, as amended: with a remote service whose sign responses carry the
    checksum of the signature and whose public-key responses carry the PEM
    text, every failure of [onSign] and of [onExportKey] is a [KmsError].
    A rejected sign call surfaces as a [KmsError] whose cause is the
    rejection.  A rejected public-key retrieval, when each status detail
    of the first rejection has a list of violations, surfaces as a
    [KmsError] whose cause is the rejection of the service that ended the
    retrieval: the first one unless it lists the pending-generation
    violation, else the second one.  What is kept as the cause when a
    status detail has no list of violations is left open here. *)
Theorem failures_surface_as_KmsError this algorithm format key data s :
  (forall w request options w' response,
     asymmetricSign (kmsClient this) w request options = (w', inr response) ->
     exists crc, signatureCrc32c response = value crc) ->
  (forall w request options w' response,
     getPublicKey (kmsClient this) w request options = (w', inr response) ->
     exists pemText, pem response = value pemText) ->
  (forall s' e,
     onSign this algorithm key data s = (s', inl e) ->
     exists message cause, e = KmsError message cause)
  /\ (forall s' e,
        onExportKey this format key s = (s', inl e) ->
        exists message cause, e = KmsError message cause)
  /\ (forall ref w cause,
        key = GcpKmsKey ref ->
        saltLength algorithm = 32 \/ saltLength algorithm = 64 ->
        asymmetricSign (kmsClient this) (remote s)
          (signRequest s ref (Buffer_from data)) KMS_REQUEST_OPTIONS
          = (w, inl cause) ->
        snd (onSign this algorithm key data s)
          = inl (KmsError "KMS signature request failed" (Some cause)))
  /\ (forall ref w1 err,
        key = GcpKmsKey ref ->
        format = spki ->
        getPublicKey (kmsClient this) (remote s)
          {| pk_name := kmsKeyVersionPath (handles s ref) |}
          {| maxRetries := 3; timeout := 300 |} = (w1, inl err) ->
        (forall details,
           statusDetailsOf err = Some details ->
           Forall (fun d => violations d <> None) details) ->
        (~ pendingGeneration err ->
         snd (onExportKey this format key s)
           = inl (KmsError "Failed to retrieve public key" (Some err)))
        /\ (pendingGeneration err ->
            forall w2 err2,
              getPublicKey (kmsClient this) w1
                {| pk_name := kmsKeyVersionPath (handles s ref) |}
                {| maxRetries := 3; timeout := 300 |} = (w2, inl err2) ->
              snd (onExportKey this format key s)
                = inl (KmsError "Failed to retrieve public key"
                         (Some err2)))).
Proof.
  intros Hcrc Hpem. split; [| split; [| split]].
  - intros s' e H. destruct key as [ref | name].
    2:{ cbn in H. injection H as _ <-. eauto. }
    destruct (includes SUPPORTED_SALT_LENGTHS (saltLength algorithm))
      eqn:Hsalt.
    2:{ rewrite (onSign_unsupported _ _ _ _ _ Hsalt) in H.
        injection H as _ <-. eauto. }
    apply includes_supported in Hsalt.
    rewrite (onSign_supported _ _ _ _ _ Hsalt) in H.
    destruct (asymmetricSign (kmsClient this) (remote s)
                (signRequest s ref (Buffer_from data)) KMS_REQUEST_OPTIONS)
      as [w [cause | response]] eqn:Hcall.
    + rewrite (kmsSign_rejected _ _ _ _ _ _ Hcall) in H.
      injection H as _ <-. eauto.
    + rewrite (kmsSign_resolved _ _ _ _ _ _ Hcall) in H. cbv zeta in H.
      destruct (negb _); [injection H as _ <-; eauto |].
      destruct (falsy _); [injection H as _ <-; eauto |].
      destruct (Hcrc _ _ _ _ _ Hcall) as [crc Hc]. rewrite Hc in H.
      destruct (negb _); [injection H as _ <-; eauto | discriminate].
  - intros s' e H. destruct format;
      try (cbn in H; injection H as _ <-; eauto; fail).
    destruct key as [ref | name].
    2:{ cbn in H. injection H as _ <-. eauto. }
    rewrite onExportKey_handle, retrieveKMSPublicKey_unfold in H.
    destruct (retrieveWhenReady _ _ s) as [s1 [e1 | p]] eqn:Hr.
    + injection H as _ <-. eauto.
    + destruct (retrieveWhenReady_value _ _ _ _ _ Hr)
        as (w & rq & op & w' & response & Hget & Hp).
      destruct (Hpem _ _ _ _ _ Hget) as [pemText Ht].
      rewrite <- Hp, Ht in H. discriminate.
  - intros ref w cause -> Hsalt Hcall.
    rewrite (onSign_supported _ _ _ _ _ Hsalt).
    now rewrite (kmsSign_rejected _ _ _ _ _ _ Hcall).
  - intros ref w1 err -> -> H1 Hdet.
    assert (Hpending :
      isKeyPendingCreation err = inr true <-> pendingGeneration err).
    { rewrite isKeyPendingCreation_true. unfold pendingGeneration. split.
      - intros (details & Hd & _ & Hex). eauto.
      - intros (details & Hd & Hex). exists details. auto. }
    assert (Hno : forall thrown, isKeyPendingCreation err <> inl thrown).
    { intros thrown Ht. unfold isKeyPendingCreation in Ht.
      destruct (statusDetailsOf err) as [details |] eqn:Hd;
        [| discriminate Ht].
      destruct (filter_details details) as [e | r] eqn:Hf;
        [| discriminate Ht].
      exact (filter_details_thrown _ _ Hf (Hdet details eq_refl)). }
    destruct (isKeyPendingCreation err) as [thrown | [|]] eqn:Hcls.
    + now elim (Hno thrown).
    + split.
      * intro Hn. elim Hn. now apply Hpending.
      * intros _ w2 err2 H2.
        rewrite onExportKey_handle, retrieveKMSPublicKey_unfold.
        now rewrite (retrieveWhenReady_pending _ _ _ _ _ _ _ H1 Hcls H2).
    + split.
      * intros _.
        assert (Hn : isKeyPendingCreation err <> inr true) by congruence.
        destruct (retrieveWhenReady_not_pending _ _ _ _ _ H1 Hn)
          as (e & He & Hfalse & _).
        rewrite onExportKey_handle, retrieveKMSPublicKey_unfold, He.
        now rewrite (Hfalse Hcls).
      * intro Hp. apply Hpending in Hp. discriminate Hp.
Qed.

End Properties.

(** * The properties on the scripted service *)

(** The concrete checksum and decoder on standard inputs: the CRC32C check
    value of the digits 1 to 9, and base64 with and without padding. *)
Example crc32c_check_value : crc32c digits_123456789 = 0xE3069283.
Proof.
  reflexivity.
Qed.

Example base64_decode_samples :
  base64_decode "aGk=" = [Byte.x68; Byte.x69]
  /\ base64_decode "aGkh" = [Byte.x68; Byte.x69; Byte.x21]
  /\ base64_decode "AAA=" = [Byte.x00; Byte.x00].
Proof.
  repeat split.
Qed.

Example pendingError_is_pending :
  isKeyPendingCreation pendingError = inr true
  /\ isKeyPendingCreation unavailable = inr false
  /\ isKeyPendingCreation
       (ServiceError "FAILED_PRECONDITION"
          (Some [ {| violations := None |} ]))
     = inl (TypeError
              "Cannot read properties of undefined (reading 'filter')").
Proof.
  repeat split.
Qed.

(** C1 at salt lengths 32 and 64 with a response that passes the checks. *)
Lemma sign_returns_verified_signature_witness :
  snd (onSign scriptedProvider (pss 32) (GcpKmsKey 0%nat) samplePlaintext
         (signScript (inr goodSignResponse)))
    = inr sampleSignature
  /\ snd (onSign scriptedProvider (pss 64) (GcpKmsKey 0%nat) samplePlaintext
            (signScript (inr goodSignResponse)))
       = inr sampleSignature.
Proof.
  split.
  - apply (f_equal snd
      (sign_returns_verified_signature scriptedProvider (pss 32) 0%nat
         samplePlaintext (signScript (inr goodSignResponse))
         {| signReplies := []; keyReplies := [] |} goodSignResponse
         (or_introl eq_refl) eq_refl eq_refl eq_refl eq_refl)).
  - apply (f_equal snd
      (sign_returns_verified_signature scriptedProvider (pss 64) 0%nat
         samplePlaintext (signScript (inr goodSignResponse))
         {| signReplies := []; keyReplies := [] |} goodSignResponse
         (or_intror eq_refl) eq_refl eq_refl eq_refl eq_refl)).
Defined.

(** C2 on a response for another key version, on one whose plaintext
    checksum was not verified and on one with a wrong signature checksum. *)
Lemma sign_rejects_untrusted_response_witness :
  (exists s' e,
     onSign scriptedProvider (pss 32) (GcpKmsKey 0%nat) samplePlaintext
       (signScript (inr responseOfOtherKey)) = (s', inl e))
  /\ (exists s' e,
        onSign scriptedProvider (pss 32) (GcpKmsKey 0%nat) samplePlaintext
          (signScript (inr responseUnverified)) = (s', inl e))
  /\ (exists s' e,
        onSign scriptedProvider (pss 32) (GcpKmsKey 0%nat) samplePlaintext
          (signScript (inr responseWithWrongChecksum)) = (s', inl e)).
Proof.
  split; [| split].
  - apply (sign_rejects_untrusted_response scriptedProvider (pss 32) 0%nat
             samplePlaintext (signScript (inr responseOfOtherKey))
             {| signReplies := []; keyReplies := [] |} responseOfOtherKey);
      [reflexivity | left; vm_compute; discriminate].
  - apply (sign_rejects_untrusted_response scriptedProvider (pss 32) 0%nat
             samplePlaintext (signScript (inr responseUnverified))
             {| signReplies := []; keyReplies := [] |} responseUnverified);
      [reflexivity | right; left; vm_compute; discriminate].
  - apply (sign_rejects_untrusted_response scriptedProvider (pss 32) 0%nat
             samplePlaintext (signScript (inr responseWithWrongChecksum))
             {| signReplies := []; keyReplies := [] |}
             responseWithWrongChecksum);
      [reflexivity | right; right; vm_compute; discriminate].
Defined.

(** C3 at a salt length of 20 octets, with a sign reply queued and left
    unused. *)
Lemma sign_rejects_unsupported_salt_length_witness :
  onSign scriptedProvider (pss 20) (GcpKmsKey 0%nat) samplePlaintext
    (signScript (inr goodSignResponse))
    = (signScript (inr goodSignResponse),
       inl (KmsError "Unsupported salt length of 20 octets" None))
  /\ remoteCalls
       (trace (fst (onSign scriptedProvider (pss 20) (GcpKmsKey 0%nat)
                      samplePlaintext (signScript (inr goodSignResponse)))))
     = 0%nat.
Proof.
  apply (sign_rejects_unsupported_salt_length scriptedProvider (pss 20) 0%nat
           samplePlaintext (signScript (inr goodSignResponse)));
    vm_compute; discriminate.
Defined.

(** C10 at an unsupported salt length: a foreign key gets the key-type
    error, and the salt-length error of a run reveals a key handle. *)
Lemma sign_checks_key_type_first_witness :
  onSign scriptedProvider (pss 20) (OtherKey "CryptoKey") samplePlaintext
    (signScript (inr goodSignResponse))
    = (signScript (inr goodSignResponse),
       inl (KmsError "Cannot sign with key of unsupported type (CryptoKey)"
              None))
  /\ exists ref, GcpKmsKey 0%nat = GcpKmsKey ref.
Proof.
  split.
  - apply (proj1 (sign_checks_key_type_first scriptedProvider (pss 20)
                    (OtherKey "CryptoKey") samplePlaintext
                    (signScript (inr goodSignResponse)))
             "CryptoKey" eq_refl).
  - apply (proj2 (sign_checks_key_type_first scriptedProvider (pss 20)
                    (GcpKmsKey 0%nat) samplePlaintext
                    (signScript (inr goodSignResponse)))
             (signScript (inr goodSignResponse)) "20" None eq_refl).
Defined.

(** The retry on a key still pending at the first attempt and ready at the
    second, and on a key pending twice: the third reply stays queued. *)
Lemma export_retries_pending_key_once_witness :
  (fst (onExportKey scriptedProvider spki (GcpKmsKey 0%nat)
          (keyScript [inl pendingError; inr {| pem := value samplePem |}]))
     = extend (keyScript [inl pendingError; inr {| pem := value samplePem |}])
         {| signReplies := []; keyReplies := [] |}
         [attempt samplePath; EvSleep 500; attempt samplePath]
   /\ snd (onExportKey scriptedProvider spki (GcpKmsKey 0%nat)
             (keyScript [inl pendingError; inr {| pem := value samplePem |}]))
      = inr [Byte.x00; Byte.x00])
  /\ (fst (onExportKey scriptedProvider spki (GcpKmsKey 0%nat)
             (keyScript [inl pendingError; inl pendingError;
                         inr {| pem := value samplePem |}]))
        = extend (keyScript [inl pendingError; inl pendingError;
                             inr {| pem := value samplePem |}])
            {| signReplies := [];
               keyReplies := [inr {| pem := value samplePem |}] |}
            [attempt samplePath; EvSleep 500; attempt samplePath]
      /\ snd (onExportKey scriptedProvider spki (GcpKmsKey 0%nat)
                (keyScript [inl pendingError; inl pendingError;
                            inr {| pem := value samplePem |}]))
         = inl (KmsError "Failed to retrieve public key"
                  (Some pendingError))).
Proof.
  split.
  - destruct (proj1 (proj2 (export_retries_pending_key_once scriptedProvider
                0%nat
                (keyScript [inl pendingError;
                            inr {| pem := value samplePem |}])))
              {| signReplies := [];
                 keyReplies := [inr {| pem := value samplePem |}] |}
              pendingError
              {| signReplies := []; keyReplies := [] |}
              (inr {| pem := value samplePem |})
              eq_refl eq_refl eq_refl) as (Hstate & _ & Hvalue).
    split; [exact Hstate | exact (Hvalue samplePem eq_refl)].
  - destruct (proj1 (proj2 (export_retries_pending_key_once scriptedProvider
                0%nat
                (keyScript [inl pendingError; inl pendingError;
                            inr {| pem := value samplePem |}])))
              {| signReplies := [];
                 keyReplies := [inl pendingError;
                                inr {| pem := value samplePem |}] |}
              pendingError
              {| signReplies := [];
                 keyReplies := [inr {| pem := value samplePem |}] |}
              (inl pendingError)
              eq_refl eq_refl eq_refl) as (Hstate & Herror & _).
    split; [exact Hstate | exact (Herror pendingError eq_refl)].
Defined.

(** C6 on a [pkcs8] export, on an [spki] export of a foreign key and on an
    [spki] export of a key handle. *)
Lemma export_requires_spki_and_key_handle_witness :
  onExportKey scriptedProvider pkcs8 (GcpKmsKey 0%nat)
    (keyScript [inr {| pem := value samplePem |}])
    = (keyScript [inr {| pem := value samplePem |}],
       inl (KmsError "Private key cannot be exported" None))
  /\ onExportKey scriptedProvider spki (OtherKey "CryptoKey")
       (keyScript [inr {| pem := value samplePem |}])
     = (keyScript [inr {| pem := value samplePem |}],
        inl (KmsError "Key is not managed by KMS" None))
  /\ onExportKey scriptedProvider spki (GcpKmsKey 0%nat)
       (keyScript [inr {| pem := value samplePem |}])
     = (extend (keyScript [inr {| pem := value samplePem |}])
          {| signReplies := []; keyReplies := [] |} [attempt samplePath],
        inr [Byte.x00; Byte.x00]).
Proof.
  split; [| split].
  - apply (proj1 (export_requires_spki_and_key_handle scriptedProvider pkcs8
                    (GcpKmsKey 0%nat)
                    (keyScript [inr {| pem := value samplePem |}]))).
    discriminate.
  - apply (proj1 (proj2 (export_requires_spki_and_key_handle scriptedProvider
                           spki (OtherKey "CryptoKey")
                           (keyScript [inr {| pem := value samplePem |}])))
             "CryptoKey" eq_refl eq_refl).
  - apply (proj2 (proj2 (proj2 (export_requires_spki_and_key_handle
                                  scriptedProvider spki (GcpKmsKey 0%nat)
                                  (keyScript
                                     [inr {| pem := value samplePem |}])))
                    0%nat eq_refl eq_refl)
             (extend (keyScript [inr {| pem := value samplePem |}])
                {| signReplies := []; keyReplies := [] |}
                [attempt samplePath])
             samplePem eq_refl).
Defined.

(** C8 on the labels and the body of the sample PEM text. *)
Lemma pemToDer_strips_framing_and_newlines_witness :
  pemToDer ("-----" ++ "BEGIN PUBLIC KEY" ++ "-----"
            ++ String newline ("AAA=" ++ String newline "")
            ++ "-----" ++ "END PUBLIC KEY" ++ "-----")
    = [Byte.x00; Byte.x00]
  /\ base64_decode "AAA=" = [Byte.x00; Byte.x00].
Proof.
  split.
  - exact (proj1 (@pemToDer_strips_framing_and_newlines scriptedImports)
             "BEGIN PUBLIC KEY" "END PUBLIC KEY"
             (String newline ("AAA=" ++ String newline ""))
             eq_refl eq_refl eq_refl).
  - reflexivity.
Defined.

(** C9 on a successful signature and a successful export, and on two
    stores whose handles differ in the hash algorithm only. *)
Lemma key_handle_is_read_only_witness :
  handles (fst (onSign scriptedProvider (pss 32) (GcpKmsKey 0%nat)
                  samplePlaintext (signScript (inr goodSignResponse))))
    = handles (signScript (inr goodSignResponse))
  /\ outcome (onSign scriptedProvider (pss 32) (GcpKmsKey 0%nat)
                samplePlaintext
                {| handles := fun _ => sampleHandleSha512;
                   remote := remote (signScript (inr goodSignResponse));
                   trace := [] |})
     = outcome (onSign scriptedProvider (pss 32) (GcpKmsKey 0%nat)
                  samplePlaintext (signScript (inr goodSignResponse))).
Proof.
  split.
  - apply (proj1 (key_handle_is_read_only scriptedProvider (pss 32) spki
                    (GcpKmsKey 0%nat) samplePlaintext
                    (signScript (inr goodSignResponse)))).
  - apply (proj1 (proj2 (proj2 (proj2
             (key_handle_is_read_only scriptedProvider (pss 32) spki
                (GcpKmsKey 0%nat) samplePlaintext
                (signScript (inr goodSignResponse)))))
             0%nat
             {| handles := fun _ => sampleHandleSha512;
                remote := remote (signScript (inr goodSignResponse));
                trace := [] |}
             eq_refl eq_refl eq_refl eq_refl)).
Defined.

(** C7 as stated fails: a sign response with a matching key path, a
    verified plaintext checksum and no signature checksum makes [onSign]
    fail with a [TypeError], which is not a [KmsError]; so does a
    public-key response without PEM text for [onExportKey]. *)
Lemma failure_escapes_as_TypeError :
  (snd (onSign scriptedProvider (pss 32) (GcpKmsKey 0%nat) samplePlaintext
          (signScript (inr responseWithoutChecksum)))
     = inl (TypeError "Cannot read properties of null (reading 'value')")
   /\ isKmsError
        (TypeError "Cannot read properties of null (reading 'value')")
      = false)
  /\ (snd (onExportKey scriptedProvider spki (GcpKmsKey 0%nat)
             (keyScript [inr {| pem := undefined |}]))
        = inl (TypeError
                 "Cannot read properties of undefined (reading 'toString')")
      /\ isKmsError
           (TypeError
              "Cannot read properties of undefined (reading 'toString')")
         = false).
Proof.
  repeat split.
Qed.

(** C7 as amended, on services that give the same reply every time: a
    rejected sign call, a wrong signature checksum, a key version that
    stays pending and a public-key retrieval that is rejected outright. *)
Lemma failures_surface_as_KmsError_witness :
  snd (onSign
         (newGcpKmsRsaPssProvider
            (steadyClient (inl unavailable)
               (inr {| pem := value samplePem |})))
         (pss 32) (GcpKmsKey 0%nat) samplePlaintext
         (signScript (inl unavailable)))
    = inl (KmsError "KMS signature request failed" (Some unavailable))
  /\ (exists message cause,
        KmsError
          "Signature CRC32C checksum does not match one received from KMS"
          None
        = KmsError message cause)
  /\ snd (onExportKey
            (newGcpKmsRsaPssProvider
               (steadyClient (inr goodSignResponse) (inl pendingError)))
            spki (GcpKmsKey 0%nat) (keyScript []))
     = inl (KmsError "Failed to retrieve public key" (Some pendingError))
  /\ snd (onExportKey
            (newGcpKmsRsaPssProvider
               (steadyClient (inr goodSignResponse) (inl unavailable)))
            spki (GcpKmsKey 0%nat) (keyScript []))
     = inl (KmsError "Failed to retrieve public key" (Some unavailable)).
Proof.
  split; [| split; [| split]].
  - apply (proj1 (proj2 (proj2
             (failures_surface_as_KmsError
                (newGcpKmsRsaPssProvider
                   (steadyClient (inl unavailable)
                      (inr {| pem := value samplePem |})))
                (pss 32) spki (GcpKmsKey 0%nat) samplePlaintext
                (signScript (inl unavailable))
                (fun w request options w' response H =>
                   ltac:(discriminate H))
                (fun w request options w' response H =>
                   ltac:(injection H as _ <-; eexists; reflexivity)))))
             0%nat {| signReplies := [inl unavailable]; keyReplies := [] |}
             unavailable eq_refl (or_introl eq_refl) eq_refl).
  - apply (proj1
             (failures_surface_as_KmsError
                (newGcpKmsRsaPssProvider
                   (steadyClient (inr responseWithWrongChecksum)
                      (inr {| pem := value samplePem |})))
                (pss 32) spki (GcpKmsKey 0%nat) samplePlaintext
                (signScript (inr responseWithWrongChecksum))
                (fun w request options w' response H =>
                   ltac:(injection H as _ <-; eexists; reflexivity))
                (fun w request options w' response H =>
                   ltac:(injection H as _ <-; eexists; reflexivity)))
             (afterSign (signScript (inr responseWithWrongChecksum))
                {| signReplies := [inr responseWithWrongChecksum];
                   keyReplies := [] |}
                (signRequest (signScript (inr responseWithWrongChecksum))
                   0%nat (Buffer_from samplePlaintext)))
             (KmsError
                "Signature CRC32C checksum does not match one received from KMS"
                None)
             eq_refl).
  - apply (proj2 (proj2 (proj2 (proj2
             (failures_surface_as_KmsError
                (newGcpKmsRsaPssProvider
                   (steadyClient (inr goodSignResponse) (inl pendingError)))
                (pss 32) spki (GcpKmsKey 0%nat) samplePlaintext
                (keyScript [])
                (fun w request options w' response H =>
                   ltac:(injection H as _ <-; eexists; reflexivity))
                (fun w request options w' response H =>
                   ltac:(discriminate H)))))
             0%nat {| signReplies := []; keyReplies := [] |} pendingError
             eq_refl eq_refl eq_refl
             ltac:(intros details H; injection H as <-;
                   repeat constructor; discriminate))
             ltac:(eexists; split; [reflexivity |];
                   left; do 2 eexists;
                   split; [reflexivity |];
                   split; [left; reflexivity | reflexivity])
             {| signReplies := []; keyReplies := [] |} pendingError eq_refl).
  - apply (proj1 (proj2 (proj2 (proj2
             (failures_surface_as_KmsError
                (newGcpKmsRsaPssProvider
                   (steadyClient (inr goodSignResponse) (inl unavailable)))
                (pss 32) spki (GcpKmsKey 0%nat) samplePlaintext
                (keyScript [])
                (fun w request options w' response H =>
                   ltac:(injection H as _ <-; eexists; reflexivity))
                (fun w request options w' response H =>
                   ltac:(discriminate H)))))
             0%nat {| signReplies := []; keyReplies := [] |} unavailable
             eq_refl eq_refl eq_refl
             ltac:(intros details H; discriminate H))
             ltac:(intros (details & H & _); discriminate H)).
Defined.

(** * Further properties of the provider *)

Section FurtherProperties.
Context {I : Imports}.

(** ** The sign operation *)

(** X1: a signature that [onSign] returns was verified: the key is a key
    handle, the salt length is 32 or 64, the remote call resolved with a
    response that echoes the handle's key path, reports the plaintext
    checksum verified and carries as signature checksum the CRC32C of the
    returned bytes, and the bytes are the response's signature. *)
Theorem sign_returns_only_verified_signatures
    this algorithm key data s s' sig :
  onSign this algorithm key data s = (s', inr sig) ->
  exists ref w response,
    key = GcpKmsKey ref
    /\ (saltLength algorithm = 32 \/ saltLength algorithm = 64)
    /\ asymmetricSign (kmsClient this) (remote s)
         (signRequest s ref (Buffer_from data)) KMS_REQUEST_OPTIONS
       = (w, inr response)
    /\ resp_name response = value (kmsKeyVersionPath (handles s ref))
    /\ verifiedDataCrc32c response = value true
    /\ signatureCrc32c response
       = value {| int64_value := calculateCRC32C sig |}
    /\ signature response = sig
    /\ s' = afterSign s w (signRequest s ref (Buffer_from data)).
Proof.
  intro H. destruct key as [ref | name]; [| discriminate H].
  destruct (includes SUPPORTED_SALT_LENGTHS (saltLength algorithm)) eqn:Hsalt.
  2:{ rewrite (onSign_unsupported _ _ _ _ _ Hsalt) in H. discriminate H. }
  apply includes_supported in Hsalt.
  rewrite (onSign_supported _ _ _ _ _ Hsalt) in H.
  destruct (asymmetricSign (kmsClient this) (remote s)
              (signRequest s ref (Buffer_from data)) KMS_REQUEST_OPTIONS)
    as [w [cause | response]] eqn:Hcall.
  { rewrite (kmsSign_rejected _ _ _ _ _ _ Hcall) in H. discriminate H. }
  rewrite (kmsSign_resolved _ _ _ _ _ _ Hcall) in H. cbv zeta in H.
  destruct (value_is _ _) eqn:Hname; cbn [negb] in H; [| discriminate H].
  destruct (falsy _) eqn:Hflag; [discriminate H |].
  destruct (signatureCrc32c response) as [| | [crc]] eqn:Hcrc;
    try discriminate H.
  cbn [int64_value] in H.
  destruct (_ =? crc) eqn:Heq; cbn [negb] in H; [| discriminate H].
  injection H as <- <-. apply Z.eqb_eq in Heq. subst crc.
  apply value_is_true in Hname. apply falsy_false in Hflag.
  exists ref, w, response. repeat split; assumption.
Qed.

(** X2: the three checks on a resolved response are made in a fixed order
    and the first one that fails names the error: a key path other than
    the requested one gives the wrong-key-version error quoting the echoed
    path, whatever the other fields; then a plaintext checksum not reported
    verified gives the plaintext-checksum error; then a signature checksum
    other than the local CRC32C gives the signature-checksum error. *)
Theorem sign_reports_first_failed_check
    this algorithm ref data s w response :
  saltLength algorithm = 32 \/ saltLength algorithm = 64 ->
  asymmetricSign (kmsClient this) (remote s)
    (signRequest s ref (Buffer_from data)) KMS_REQUEST_OPTIONS
    = (w, inr response) ->
  (resp_name response <> value (kmsKeyVersionPath (handles s ref)) ->
   onSign this algorithm (GcpKmsKey ref) data s =
     (afterSign s w (signRequest s ref (Buffer_from data)),
      inl (KmsError ("KMS used the wrong key version ("
                     ++ interpolate (resp_name response) ++ ")") None)))
  /\ (resp_name response = value (kmsKeyVersionPath (handles s ref)) ->
      verifiedDataCrc32c response <> value true ->
      onSign this algorithm (GcpKmsKey ref) data s =
        (afterSign s w (signRequest s ref (Buffer_from data)),
         inl (KmsError "KMS failed to verify plaintext CRC32C checksum"
                None)))
  /\ (forall crc,
        resp_name response = value (kmsKeyVersionPath (handles s ref)) ->
        verifiedDataCrc32c response = value true ->
        signatureCrc32c response = value crc ->
        int64_value crc <> calculateCRC32C (signature response) ->
        onSign this algorithm (GcpKmsKey ref) data s =
          (afterSign s w (signRequest s ref (Buffer_from data)),
           inl (KmsError
             "Signature CRC32C checksum does not match one received from KMS"
             None))).
Proof.
  intros Hsalt Hcall.
  rewrite (onSign_supported _ _ _ _ _ Hsalt).
  rewrite (kmsSign_resolved _ _ _ _ _ _ Hcall). cbv zeta.
  split; [| split].
  - intro Hname.
    destruct (value_is _ _) eqn:E; [| reflexivity].
    apply value_is_true in E. contradiction.
  - intros Hname Hflag. apply value_is_true in Hname. rewrite Hname.
    cbn [negb].
    destruct (falsy _) eqn:E; [reflexivity |].
    apply falsy_false in E. contradiction.
  - intros crc Hname Hflag Hcrc Hneq.
    apply value_is_true in Hname. rewrite Hname.
    apply falsy_false in Hflag. rewrite Hflag. cbn [negb]. rewrite Hcrc.
    destruct (_ =? _) eqn:E; [| reflexivity].
    apply Z.eqb_eq in E. congruence.
Qed.

(** X3: on a key handle with a supported salt length, [onSign] calls the
    remote service exactly once, whatever the outcome: the trace grows by
    one sign request, which carries the data, the CRC32C of the data, the
    handle's key path and [KMS_REQUEST_OPTIONS]; there is no retry, no
    delay and no public-key retrieval, and the service is left in the state
    that call produced. *)
Theorem sign_calls_the_service_once this algorithm ref data s :
  saltLength algorithm = 32 \/ saltLength algorithm = 64 ->
  trace (fst (onSign this algorithm (GcpKmsKey ref) data s))
    = (trace s
       ++ [EvAsymmetricSign
             {| req_data := data;
                req_dataCrc32c := {| int64_value := calculateCRC32C data |};
                req_name := kmsKeyVersionPath (handles s ref) |}
             KMS_REQUEST_OPTIONS])%list
  /\ remoteCalls (trace (fst (onSign this algorithm (GcpKmsKey ref) data s)))
     = S (remoteCalls (trace s))
  /\ remote (fst (onSign this algorithm (GcpKmsKey ref) data s))
     = fst (asymmetricSign (kmsClient this) (remote s)
              (signRequest s ref (Buffer_from data)) KMS_REQUEST_OPTIONS).
Proof.
  intro Hsalt.
  assert (Hst : fst (onSign this algorithm (GcpKmsKey ref) data s)
    = afterSign s
        (fst (asymmetricSign (kmsClient this) (remote s)
                (signRequest s ref (Buffer_from data)) KMS_REQUEST_OPTIONS))
        (signRequest s ref (Buffer_from data))).
  { rewrite (onSign_supported _ _ _ _ _ Hsalt).
    destruct (asymmetricSign (kmsClient this) (remote s)
                (signRequest s ref (Buffer_from data)) KMS_REQUEST_OPTIONS)
      as [w [cause | response]] eqn:Hcall.
    - now rewrite (kmsSign_rejected _ _ _ _ _ _ Hcall).
    - rewrite (kmsSign_resolved _ _ _ _ _ _ Hcall). cbv zeta.
      destruct (negb _); [reflexivity |].
      destruct (falsy _); [reflexivity |].
      destruct (signatureCrc32c response); try reflexivity.
      destruct (negb _); reflexivity. }
  rewrite Hst. split; [reflexivity |]. split; [| reflexivity].
  unfold afterSign. cbn [trace]. rewrite remoteCalls_app. cbn. lia.
Qed.

(** X4: among the supported salt lengths the choice does not matter, and
    neither does the rest of the algorithm parameter: two sign calls that
    differ only in the algorithm, each with a salt length of 32 or 64, are
    the same computation.  The salt length is not sent to the service and
    is not compared with the hash algorithm of the key handle. *)
Theorem sign_ignores_which_supported_salt_length
    this algorithm1 algorithm2 ref data s :
  saltLength algorithm1 = 32 \/ saltLength algorithm1 = 64 ->
  saltLength algorithm2 = 32 \/ saltLength algorithm2 = 64 ->
  onSign this algorithm1 (GcpKmsKey ref) data s
    = onSign this algorithm2 (GcpKmsKey ref) data s.
Proof.
  intros H1 H2.
  now rewrite (onSign_supported _ _ _ _ _ H1), (onSign_supported _ _ _ _ _ H2).
Qed.

(** ** Classification of retrieval errors *)

Lemma filter_details_throws (l : list StatusDetail) (e : JsError) :
  filter_details l = inl e <->
  Exists (fun d => violations d = None) l
  /\ e = TypeError "Cannot read properties of undefined (reading 'filter')".
Proof.
  induction l as [| d l IH].
  - split; [discriminate |]. intros [E _]. inversion E.
  - cbn [filter_details]. unfold hasPendingViolation.
    destruct (violations d) as [vs |] eqn:Hd.
    + destruct (filter_details l) as [e' | r].
      * split.
        -- intro H. injection H as <-.
           destruct (proj1 IH eq_refl) as [E ->]. split; [now right | easy].
        -- intros [E ->]. f_equal.
           inversion E as [? ? Hn | ? ? Hl]; subst; [congruence |].
           assert (Hx : inl e' = inl (TypeError
             "Cannot read properties of undefined (reading 'filter')")
             :> JsError + list StatusDetail)
             by (apply IH; auto).
           now injection Hx.
      * split; [discriminate |]. intros [E ->]. exfalso.
        inversion E as [? ? Hn | ? ? Hl]; subst; [congruence |].
        assert (Hx : inr r = inl (TypeError
          "Cannot read properties of undefined (reading 'filter')")
          :> JsError + list StatusDetail)
          by (apply IH; auto).
        discriminate Hx.
    + split.
      * intro H. injection H as <-. split; [now left | reflexivity].
      * intros [_ ->]. reflexivity.
Qed.

(** X5: what [isKeyPendingCreation] answers, in terms of the error.  It is
    [true] exactly when the error has [statusDetails] in which every detail
    has a list of violations and one of them lists a violation of type
    [KEY_PENDING_GENERATION]; it throws a [TypeError] exactly when some
    detail has no list of violations, even if another detail lists the
    pending violation; it is [false] otherwise, in particular for an error
    without [statusDetails], such as a [KmsError] that wraps a pending
    error. *)
Theorem isKeyPendingCreation_cases (err : JsError) :
  (isKeyPendingCreation err = inr true <->
   exists details,
     statusDetailsOf err = Some details
     /\ Forall (fun d => violations d <> None) details
     /\ Exists carriesPendingViolation details)
  /\ (forall thrown,
        isKeyPendingCreation err = inl thrown <->
        (exists details,
           statusDetailsOf err = Some details
           /\ Exists (fun d => violations d = None) details)
        /\ thrown = TypeError
             "Cannot read properties of undefined (reading 'filter')")
  /\ (isKeyPendingCreation err = inr false <->
      forall details,
        statusDetailsOf err = Some details ->
        Forall (fun d => violations d <> None) details
        /\ ~ Exists carriesPendingViolation details).
Proof.
  split; [apply isKeyPendingCreation_true | split].
  - intro thrown. unfold isKeyPendingCreation.
    destruct (statusDetailsOf err) as [details |].
    + destruct (filter_details details) as [e | r] eqn:Hf.
      * apply filter_details_throws in Hf as [E ->]. split.
        -- intro H. injection H as <-. split; [eauto | reflexivity].
        -- intros [_ ->]. reflexivity.
      * split; [discriminate |]. intros [(details' & Hd & E) ->].
        injection Hd as <-.
        assert (Hx : filter_details details = inl (TypeError
          "Cannot read properties of undefined (reading 'filter')"))
          by (apply filter_details_throws; auto).
        congruence.
    + cbn. split; [discriminate |]. intros [(details & Hd & _) _].
      discriminate Hd.
  - unfold isKeyPendingCreation.
    destruct (statusDetailsOf err) as [details |].
    + destruct (filter_details details) as [e | r] eqn:Hf.
      * split; [discriminate |]. intro H.
        destruct (H details eq_refl) as [Hall _].
        now elim (filter_details_thrown _ _ Hf).
      * destruct (filter_details_resolved _ _ Hf) as [Hall Hex]. split.
        -- intros H details' Hd. injection Hd as <-.
           split; [assumption |]. intro E. apply Hex in E.
           destruct r; [congruence | discriminate H].
        -- intro H. destruct (H details eq_refl) as [_ Hno].
           destruct r as [| d r]; [reflexivity |].
           elim Hno. apply Hex. discriminate.
    + cbn. split; [| reflexivity]. intros _ details Hd. discriminate Hd.
Qed.

(** ** Public key retrieval *)

(** X6: when the first retrieval is rejected with an error one of whose
    status details has no list of violations, the export makes that one
    attempt and fails; the cause kept in the [KmsError] is the [TypeError]
    of the classification, not the rejection of the service.  This is so
    even if another detail lists the pending-generation violation. *)
Theorem export_fails_when_a_detail_lacks_violations
    this ref s w1 err details :
  getPublicKey (kmsClient this) (remote s)
    {| pk_name := kmsKeyVersionPath (handles s ref) |}
    {| maxRetries := 3; timeout := 300 |} = (w1, inl err) ->
  statusDetailsOf err = Some details ->
  Exists (fun d => violations d = None) details ->
  onExportKey this spki (GcpKmsKey ref) s
    = (extend s w1 [attempt (kmsKeyVersionPath (handles s ref))],
       inl (KmsError "Failed to retrieve public key"
              (Some (TypeError
                 "Cannot read properties of undefined (reading 'filter')")))).
Proof.
  intros H1 Hd E.
  assert (Hcls : isKeyPendingCreation err = inl (TypeError
    "Cannot read properties of undefined (reading 'filter')")).
  { unfold isKeyPendingCreation. rewrite Hd.
    assert (Hx : filter_details details = inl (TypeError
      "Cannot read properties of undefined (reading 'filter')"))
      by (apply filter_details_throws; auto).
    now rewrite Hx. }
  assert (Hn : isKeyPendingCreation err <> inr true) by congruence.
  destruct (retrieveWhenReady_not_pending _ _ _ _ _ H1 Hn)
    as (e & He & _ & Hthrown).
  rewrite onExportKey_handle, retrieveKMSPublicKey_unfold, He.
  now rewrite (Hthrown _ Hcls).
Qed.

(** The PEM value that [retrieveWhenReady] returns is the one of the last
    response to a retrieval request for that key. *)
Lemma retrieveWhenReady_last_response name client s s' p :
  retrieveWhenReady name client s = (s', inr p) ->
  exists w response,
    getPublicKey client w {| pk_name := name |}
      {| maxRetries := 3; timeout := 300 |} = (remote s', inr response)
    /\ pem response = p.
Proof.
  intro H.
  destruct (getPublicKey client (remote s) {| pk_name := name |}
              {| maxRetries := 3; timeout := 300 |})
    as [w1 [err | response]] eqn:H1.
  - destruct (isKeyPendingCreation err) as [e' | [|]] eqn:Hcls.
    + assert (Hn : isKeyPendingCreation err <> inr true) by congruence.
      destruct (retrieveWhenReady_not_pending _ _ _ _ _ H1 Hn) as (e & He & _).
      congruence.
    + destruct (getPublicKey client w1 {| pk_name := name |}
                  {| maxRetries := 3; timeout := 300 |})
        as [w2 [err2 | response2]] eqn:H2;
        rewrite (retrieveWhenReady_pending _ _ _ _ _ _ _ H1 Hcls H2) in H;
        [discriminate |].
      injection H as <- <-. exists w1, response2. now split.
    + assert (Hn : isKeyPendingCreation err <> inr true) by congruence.
      destruct (retrieveWhenReady_not_pending _ _ _ _ _ H1 Hn) as (e & He & _).
      congruence.
  - rewrite (retrieveWhenReady_first_resolved _ _ _ _ _ H1) in H.
    injection H as <- <-. exists (remote s), response. now split.
Qed.

(** X7: a public key that [onExportKey] returns was retrieved: the format
    is [spki], the key is a key handle, and the bytes are [pemToDer] of the
    PEM text in a response of the service to a retrieval request for the
    handle's key path, namely the response that left the service in its
    final state. *)
Theorem export_returns_only_retrieved_keys this format key s s' der :
  onExportKey this format key s = (s', inr der) ->
  format = spki
  /\ exists ref w response pemText,
       key = GcpKmsKey ref
       /\ getPublicKey (kmsClient this) w
            {| pk_name := kmsKeyVersionPath (handles s ref) |}
            {| maxRetries := 3; timeout := 300 |}
          = (remote s', inr response)
       /\ pem response = value pemText
       /\ der = pemToDer pemText.
Proof.
  intro H. destruct format; try discriminate H. split; [reflexivity |].
  destruct key as [ref | name]; [| discriminate H].
  rewrite onExportKey_handle, retrieveKMSPublicKey_unfold in H.
  destruct (retrieveWhenReady _ _ s) as [s1 [e | [| | pemText]]] eqn:Hr;
    try discriminate H.
  injection H as <- <-.
  destruct (retrieveWhenReady_last_response _ _ _ _ _ Hr)
    as (w & response & Hget & Hpem).
  exists ref, w, response, pemText. auto.
Qed.

(** ** PEM decoding *)

Lemma Subsequence_length (a b : string) :
  Subsequence a b -> (String.length a <= String.length b)%nat.
Proof.
  induction 1; simpl; lia.
Qed.

(** X8: whatever the text, the replacement in [pemToDer] only deletes
    characters and leaves no newline: the text handed to the base64 decoder
    is a subsequence of the PEM text, no longer than it, without newline
    characters. *)
Theorem replace_framing_only_deletes (s : string) :
  Subsequence (replace_framing 0 s) s
  /\ (String.length (replace_framing 0 s) <= String.length s)%nat
  /\ string_forallb not_newline (replace_framing 0 s) = true.
Proof.
  assert (Hsub : forall t n, Subsequence (replace_framing n t) t).
  { induction t as [| c t IH]; intro n; [constructor |].
    cbn [replace_framing]. destruct n as [| k].
    - destruct (match_framing (String c t)).
      + constructor. apply IH.
      + destruct (Ascii.eqb c newline); constructor; apply IH.
    - constructor. apply IH. }
  assert (Hnl : forall t n,
    string_forallb not_newline (replace_framing n t) = true).
  { induction t as [| c t IH]; intro n; [reflexivity |].
    cbn [replace_framing]. destruct n as [| k].
    - destruct (match_framing (String c t)); [apply IH |].
      destruct (Ascii.eqb c newline) eqn:E; [apply IH |].
      cbn [string_forallb]. unfold not_newline at 1. rewrite E.
      cbn [negb andb]. apply IH.
    - apply IH. }
  split; [apply Hsub |]. split; [| apply Hnl].
  apply Subsequence_length, Hsub.
Qed.

(** X9: a text without dashes, such as a bare base64 body on one or
    several lines, has no framing to remove: [pemToDer] decodes it with
    its newlines removed and every other character, carriage returns
    included, kept. *)
Theorem pemToDer_of_text_without_dashes (text : string) :
  string_forallb not_dash text = true ->
  pemToDer text = Buffer_from_base64 (drop_newlines text).
Proof.
  intro H. unfold pemToDer. cbv zeta.
  rewrite <- (append_empty text) at 1.
  rewrite (replace_framing_body _ _ H). cbn [replace_framing].
  now rewrite append_empty.
Qed.

(** X10: the replacement works through a text piece by piece: a stretch
    without dashes followed by a framing line contributes the stretch
    without its newlines, and the scan goes on after the framing line.  So
    the bodies of several PEM blocks in one text are decoded as one
    concatenated base64 text. *)
Theorem replace_framing_body_then_framing (body label rest : string) :
  string_forallb not_dash body = true ->
  string_forallb is_label_char label = true ->
  replace_framing 0 (body ++ "-----" ++ label ++ "-----" ++ rest)
    = drop_newlines body ++ replace_framing 0 rest.
Proof.
  intros Hb Hl.
  rewrite (replace_framing_body _ _ Hb).
  now rewrite (replace_framing_label _ _ Hl).
Qed.

End FurtherProperties.

(** * The further properties on the scripted service *)

(** X1 on the signature returned for the good response. *)
Lemma sign_returns_only_verified_signatures_witness :
  exists ref w response,
    GcpKmsKey 0%nat = GcpKmsKey ref
    /\ (saltLength (pss 32) = 32 \/ saltLength (pss 32) = 64)
    /\ asymmetricSign (kmsClient scriptedProvider)
         (remote (signScript (inr goodSignResponse)))
         (signRequest (signScript (inr goodSignResponse)) ref
            (Buffer_from samplePlaintext)) KMS_REQUEST_OPTIONS
       = (w, inr response)
    /\ resp_name response
       = value (kmsKeyVersionPath
                  (handles (signScript (inr goodSignResponse)) ref))
    /\ verifiedDataCrc32c response = value true
    /\ signatureCrc32c response
       = value {| int64_value := calculateCRC32C sampleSignature |}
    /\ signature response = sampleSignature
    /\ afterSign (signScript (inr goodSignResponse))
         {| signReplies := []; keyReplies := [] |}
         (signRequest (signScript (inr goodSignResponse)) 0%nat
            (Buffer_from samplePlaintext))
       = afterSign (signScript (inr goodSignResponse)) w
           (signRequest (signScript (inr goodSignResponse)) ref
              (Buffer_from samplePlaintext)).
Proof.
  exact (sign_returns_only_verified_signatures scriptedProvider (pss 32)
           (GcpKmsKey 0%nat) samplePlaintext
           (signScript (inr goodSignResponse))
           (afterSign (signScript (inr goodSignResponse))
              {| signReplies := []; keyReplies := [] |}
              (signRequest (signScript (inr goodSignResponse)) 0%nat
                 (Buffer_from samplePlaintext)))
           sampleSignature eq_refl).
Defined.

(** X2 on a response for another key version whose other fields are fine,
    on an unverified one and on one with a wrong signature checksum. *)
Lemma sign_reports_first_failed_check_witness :
  snd (onSign scriptedProvider (pss 32) (GcpKmsKey 0%nat) samplePlaintext
         (signScript (inr responseOfOtherKey)))
    = inl (KmsError
        "KMS used the wrong key version (projects/p/locations/l/keyRings/r/cryptoKeys/k/cryptoKeyVersions/2)"
        None)
  /\ snd (onSign scriptedProvider (pss 32) (GcpKmsKey 0%nat) samplePlaintext
            (signScript (inr responseUnverified)))
     = inl (KmsError "KMS failed to verify plaintext CRC32C checksum" None)
  /\ snd (onSign scriptedProvider (pss 32) (GcpKmsKey 0%nat) samplePlaintext
            (signScript (inr responseWithWrongChecksum)))
     = inl (KmsError
         "Signature CRC32C checksum does not match one received from KMS"
         None).
Proof.
  split; [| split].
  - apply (f_equal snd
      (proj1 (sign_reports_first_failed_check scriptedProvider (pss 32) 0%nat
                samplePlaintext (signScript (inr responseOfOtherKey))
                {| signReplies := []; keyReplies := [] |} responseOfOtherKey
                (or_introl eq_refl) eq_refl)
         ltac:(vm_compute; discriminate))).
  - apply (f_equal snd
      (proj1 (proj2
         (sign_reports_first_failed_check scriptedProvider (pss 32) 0%nat
            samplePlaintext (signScript (inr responseUnverified))
            {| signReplies := []; keyReplies := [] |} responseUnverified
            (or_introl eq_refl) eq_refl))
         eq_refl ltac:(vm_compute; discriminate))).
  - apply (f_equal snd
      (proj2 (proj2
         (sign_reports_first_failed_check scriptedProvider (pss 32) 0%nat
            samplePlaintext (signScript (inr responseWithWrongChecksum))
            {| signReplies := []; keyReplies := [] |}
            responseWithWrongChecksum
            (or_introl eq_refl) eq_refl))
         {| int64_value := crc32c sampleSignature - 1 |}
         eq_refl eq_refl eq_refl ltac:(vm_compute; discriminate))).
Defined.

(** X3 on a rejected sign call: one remote call, and the reply is used. *)
Lemma sign_calls_the_service_once_witness :
  trace (fst (onSign scriptedProvider (pss 64) (GcpKmsKey 0%nat)
                samplePlaintext (signScript (inl unavailable))))
    = [EvAsymmetricSign
         {| req_data := samplePlaintext;
            req_dataCrc32c := {| int64_value := crc32c samplePlaintext |};
            req_name := samplePath |}
         {| maxRetries := 10; timeout := 3000 |}]
  /\ remoteCalls
       (trace (fst (onSign scriptedProvider (pss 64) (GcpKmsKey 0%nat)
                      samplePlaintext (signScript (inl unavailable)))))
     = 1%nat
  /\ remote (fst (onSign scriptedProvider (pss 64) (GcpKmsKey 0%nat)
                    samplePlaintext (signScript (inl unavailable))))
     = {| signReplies := []; keyReplies := [] |}.
Proof.
  exact (sign_calls_the_service_once scriptedProvider (pss 64) 0%nat
           samplePlaintext (signScript (inl unavailable))
           (or_intror eq_refl)).
Defined.

(** X4 on the salt lengths 32 and 64 for the sample handle, whose hash
    algorithm is SHA-256. *)
Lemma sign_ignores_which_supported_salt_length_witness :
  onSign scriptedProvider (pss 32) (GcpKmsKey 0%nat) samplePlaintext
    (signScript (inr goodSignResponse))
  = onSign scriptedProvider (pss 64) (GcpKmsKey 0%nat) samplePlaintext
      (signScript (inr goodSignResponse)).
Proof.
  exact (sign_ignores_which_supported_salt_length scriptedProvider
           (pss 32) (pss 64) 0%nat samplePlaintext
           (signScript (inr goodSignResponse))
           (or_introl eq_refl) (or_intror eq_refl)).
Defined.

(** X6 on a rejection that lists the pending violation next to a detail
    without violations: the queued PEM reply is never asked for. *)
Lemma export_fails_when_a_detail_lacks_violations_witness :
  onExportKey scriptedProvider spki (GcpKmsKey 0%nat)
    (keyScript [inl mixedDetailsError; inr {| pem := value samplePem |}])
  = (extend
       (keyScript [inl mixedDetailsError; inr {| pem := value samplePem |}])
       {| signReplies := [];
          keyReplies := [inr {| pem := value samplePem |}] |}
       [attempt samplePath],
     inl (KmsError "Failed to retrieve public key"
            (Some (TypeError
               "Cannot read properties of undefined (reading 'filter')")))).
Proof.
  exact (export_fails_when_a_detail_lacks_violations scriptedProvider 0%nat
           (keyScript [inl mixedDetailsError;
                       inr {| pem := value samplePem |}])
           {| signReplies := [];
              keyReplies := [inr {| pem := value samplePem |}] |}
           mixedDetailsError
           [ {| violations :=
                  Some [ {| type := "KEY_PENDING_GENERATION";
                            description := "key is pending generation" |} ] |};
             {| violations := None |} ]
           eq_refl eq_refl
           ltac:(right; left; reflexivity)).
Defined.

(** X7 on the key exported after one pending rejection. *)
Lemma export_returns_only_retrieved_keys_witness :
  spki = spki
  /\ exists ref w response pemText,
       GcpKmsKey 0%nat = GcpKmsKey ref
       /\ getPublicKey (kmsClient scriptedProvider) w
            {| pk_name :=
                 kmsKeyVersionPath
                   (handles
                      (keyScript [inl pendingError;
                                  inr {| pem := value samplePem |}]) ref) |}
            {| maxRetries := 3; timeout := 300 |}
          = ({| signReplies := []; keyReplies := [] |}, inr response)
       /\ pem response = value pemText
       /\ [Byte.x00; Byte.x00] = pemToDer pemText.
Proof.
  exact (export_returns_only_retrieved_keys scriptedProvider spki
           (GcpKmsKey 0%nat)
           (keyScript [inl pendingError; inr {| pem := value samplePem |}])
           (extend
              (keyScript [inl pendingError;
                          inr {| pem := value samplePem |}])
              {| signReplies := []; keyReplies := [] |}
              [attempt samplePath; EvSleep 500; attempt samplePath])
           [Byte.x00; Byte.x00] eq_refl).
Defined.

(** X9 on a base64 body broken over two lines with a carriage return. *)
Lemma pemToDer_of_text_without_dashes_witness :
  pemToDer ("aG" ++ String "013" (String newline "k="))
    = [Byte.x68; Byte.x69].
Proof.
  exact (@pemToDer_of_text_without_dashes scriptedImports
           ("aG" ++ String "013" (String newline "k=")) eq_refl).
Defined.

(** X10 on two PEM blocks, one after the other. *)
Lemma replace_framing_body_then_framing_witness :
  replace_framing 0
    ("-----BEGIN PUBLIC KEY-----" ++ String newline "AAA="
     ++ String newline "-----END PUBLIC KEY-----"
     ++ String newline "-----BEGIN PUBLIC KEY-----"
     ++ String newline "aGk="
     ++ String newline "-----END PUBLIC KEY-----")
  = "AAA=aGk=".
Proof.
  exact (eq_trans
    (replace_framing_body_then_framing "" "BEGIN PUBLIC KEY"
       (String newline "AAA="
        ++ String newline "-----END PUBLIC KEY-----"
        ++ String newline "-----BEGIN PUBLIC KEY-----"
        ++ String newline "aGk="
        ++ String newline "-----END PUBLIC KEY-----")
       eq_refl eq_refl)
    eq_refl).
Defined.

(** * The retry on an error with a detail without violations *)

(** C4 fails on the code at a first rejection that carries the
    pending-generation violation in one status detail and has another
    detail without a list of violations: [isKeyPendingCreation] throws,
    and the export ends after one attempt, without delay or retry and with
    the PEM reply still queued. *)
Lemma export_gives_up_on_pending_key_with_mixed_details :
  pendingGeneration mixedDetailsError
  /\ isKeyPendingCreation mixedDetailsError
     = inl (TypeError
              "Cannot read properties of undefined (reading 'filter')")
  /\ onExportKey scriptedProvider spki (GcpKmsKey 0%nat)
       (keyScript [inl mixedDetailsError; inr {| pem := value samplePem |}])
     = ({| handles := fun _ => sampleHandle;
           remote := {| signReplies := [];
                        keyReplies := [inr {| pem := value samplePem |}] |};
           trace := [EvGetPublicKey {| pk_name := samplePath |}
                       {| maxRetries := 3; timeout := 300 |}] |},
        inl (KmsError "Failed to retrieve public key"
               (Some (TypeError
                  "Cannot read properties of undefined (reading 'filter')")))).
Proof.
  split; [| split; reflexivity].
  eexists. split; [reflexivity |].
  left. do 2 eexists. split; [reflexivity |].
  split; [left; reflexivity | reflexivity].
Qed.
